(** * sshesame: the connection lifecycle of an SSH honeypot

    A shallow embedding of [main.go]: host-key provisioning, the listener
    and its accept loop, the per-connection supervisor [handleConn] and
    the password callback that accepts every credential.

    The program talks to its environment all the time (file system, random
    source, sockets, the SSH library, the logger) and its accept loop
    never ends, so the code is embedded as interaction trees: every call
    that leaves the program is an event, and the functions of [main.go]
    are trees over those events.  A fuelled runner then executes a tree
    against a scripted environment and collects what an observer of the
    process would see: log records, goroutines started, sockets closed. *)

From Stdlib Require Import List String Ascii Strings.Byte ZArith Lia Bool DecimalString.
From ITree Require Import ITree Eq.Shallow.
Import ListNotations.
Import ITreeNotations.
Local Open Scope string_scope.
Local Open Scope list_scope.
Local Open Scope itree_scope.

(* ===================================================================== *)
(** * Data model *)
(* ===================================================================== *)

(** Go's [[]byte]. *)
Definition bytes := list byte.

(** Go's [error]: all the program ever does with one is call [Error()]. *)
Record error := mkError { Error : string }.

(** [net.Addr], as the logger prints it. *)
Record Addr := mkAddr { addr_network : string; addr_string : string }.

(** [net.Conn]: an accepted socket.  [conn_id] tells sockets apart. *)
Record Conn := mkConn { conn_id : nat; RemoteAddr : Addr }.

(** [net.Listener]. *)
Record Listener := mkListener { listener_Addr : Addr }.

(** [[32]byte], the result type of [sha256.Sum256]. *)
Record array32 := mkArray32 {
  arr_bytes : bytes;
  arr_len : Nat.eqb (List.length arr_bytes) 32 = true
}.

(** ** Keys *)

(** [ed25519.PrivateKey] and [ed25519.PublicKey]. *)
Record ed25519_PublicKey := mkEdPub { edpub_bytes : bytes }.
Record ed25519_PrivateKey := mkEdPriv { edpriv_bytes : bytes; edpriv_Public : ed25519_PublicKey }.

(** The algorithms [ssh.ParsePrivateKey] understands. *)
Inductive KeyAlgo := algo_rsa | algo_dsa | algo_ecdsa | algo_ed25519.

(** [ssh.PublicKey]. *)
Inductive ssh_PublicKey :=
| ed25519PublicKey (k : ed25519_PublicKey)
| parsedPublicKey (a : KeyAlgo) (blob : bytes).

(** [ssh.Signer]: either what [ssh.ParsePrivateKey] found in a key file, or
    the wrapper [ssh.NewSignerFromSigner] puts around a [crypto.Signer]
    (the only [crypto.Signer] of this program is an Ed25519 private key). *)
Inductive Signer :=
| parsedSigner (pub : ssh_PublicKey) (secret : bytes)
| wrappedSigner (k : ed25519_PrivateKey).

(** [Signer.PublicKey()]. *)
Definition PublicKey (s : Signer) : ssh_PublicKey :=
  match s with
  | parsedSigner pub _ => pub
  | wrappedSigner k => ed25519PublicKey (edpriv_Public k)
  end.

(** [PublicKey.Type()]. *)
Definition key_algo (p : ssh_PublicKey) : KeyAlgo :=
  match p with
  | ed25519PublicKey _ => algo_ed25519
  | parsedPublicKey a _ => a
  end.

(** ** Log records *)

Inductive Level := FatalLevel | WarnLevel | InfoLevel.

Inductive Formatter := TextFormatter | JSONFormatter.

(** The values the program puts in [log.Fields]. *)
Inductive FieldValue :=
| VAddr (a : Addr)
| VString (s : string)
| VArray32 (d : array32).

(** [log.Fields] is a map with string keys; the keys of one record are
    distinct literals, kept here in the order the source writes them. *)
Definition Fields := list (string * FieldValue).

Record LogRecord := mkLog {
  log_level : Level;
  log_fields : Fields;
  log_msg : string
}.

(** ** SSH protocol objects *)

(** [ssh.Permissions], [ssh.NewChannel], [*ssh.Request]: opaque to the core. *)
Record Permissions := mkPermissions { CriticalOptions : list (string * string) }.
Record NewChannel := mkNewChannel { ChannelType : string; ExtraData : bytes }.
Record Request := mkRequest { req_Type : string; WantReply : bool; Payload : bytes }.

(** A receive-only Go channel [<-chan A] as its reader sees it: the values
    still to arrive, and whether the sender closes the channel after them
    ([chan_closes = false]: after the last value the reader waits for
    ever). *)
Record Chan (A : Type) := mkChan { chan_items : list A; chan_closes : bool }.
Arguments mkChan {A}.
Arguments chan_items {A}.
Arguments chan_closes {A}.

(** [ssh.ConnMetadata], the callback's view of the connection. *)
Record ConnMetadata := mkMeta {
  meta_User : string;
  meta_ClientVersion : bytes;
  meta_RemoteAddr : Addr
}.

(* ===================================================================== *)
(** * Events *)
(* ===================================================================== *)

(** The logger (logrus).  [Fatal] writes its record and exits the
    process: nothing comes back from it. *)
Variant logE : Type -> Type :=
| SetFormatter (f : Formatter) : logE unit
| Log (r : LogRecord) : logE unit
| Fatal (msg : string) : logE void.

(** [ssh.ServerConfig], with the fields [main] sets. *)
Record ServerConfig := mkServerConfig {
  ServerVersion : string;
  PasswordCallback : ConnMetadata -> bytes -> itree logE (option Permissions * option error);
  hostKeys : list Signer
}.

(** The calls behind a [go] statement.  [request.Handle] and
    [channel.Handle] belong to other packages: the program starts them
    and never looks at them again. *)
Inductive Task :=
| go_handleConn (serverConfig : ServerConfig) (conn : Conn)
| go_request_Handle (remote : Addr) (category : string) (requests : Chan Request)
| go_channel_Handle (remote : Addr) (newChannel : NewChannel).

(** What the client and the network do during one SSH handshake: the
    password attempts the client makes, in order, and how the handshake
    ends. *)
Record Attempt := mkAttempt {
  att_user : string;
  att_password : bytes
}.

Record Established := mkEstablished {
  est_channels : Chan NewChannel;
  est_requests : Chan Request
}.

Record Handshake := mkHandshake {
  hs_version : bytes;
  hs_attempts : list Attempt;
  hs_result : Established + error
}.

(** Everything else that leaves the program. *)
Variant sysE : Type -> Type :=
| ReadFile (path : string) : sysE (bytes + error)
| ParsePrivateKey (pem : bytes) : sysE (Signer + error)
| GenerateKey : sysE (ed25519_PublicKey * ed25519_PrivateKey + error)
| NewSignerFromSigner (k : ed25519_PrivateKey) : sysE (Signer + error)
| Sum256 (data : bytes) : sysE array32
| Marshal (k : ssh_PublicKey) : sysE bytes
| Listen (network address : string) : sysE (Listener + error)
| Accept (l : Listener) : sysE (Conn + error)
| ListenerClose (l : Listener) : sysE unit
| ConnClose (c : Conn) : sysE unit
| ClientHandshake (c : Conn) : sysE Handshake
| Recv (c : Chan NewChannel) : sysE (option (NewChannel * Chan NewChannel))
| Go (t : Task) : sysE unit.

Definition E := logE +' sysE.

(* ===================================================================== *)
(** * The program *)
(* ===================================================================== *)

(** ** Small pieces of Go *)

(** [defer cleanup] at the top of a function whose remaining body is
    [body]: the cleanup runs when the body returns, on whichever path. *)
Definition defer {R} (cleanup : itree E unit) (body : itree E R) : itree E R :=
  r <- body ;; cleanup ;; Ret r.

(** [for v := range c { body v }]. *)
Definition range (c : Chan NewChannel) (body : NewChannel -> itree E unit) : itree E unit :=
  ITree.iter
    (fun c =>
       r <- trigger (Recv c) ;;
       match r with
       | Some (v, c') => body v ;; Ret (inl c')
       | None => Ret (inr tt)
       end) c.

(** [log.WithFields(fields).Info(msg)] and [.Warning(msg)]. *)
Definition log_WithFields {F} `{logE -< F} (fields : Fields) (lvl : Level) (msg : string)
  : itree F unit :=
  trigger (Log (mkLog lvl fields msg)).

(** [log.Warning(a, b)] and [log.Fatal(a, b)] with two string operands:
    logrus joins them with [fmt.Sprint], which puts no space between
    strings. *)
Definition log_Warning {F} `{logE -< F} (a b : string) : itree F unit :=
  trigger (Log (mkLog WarnLevel [] (a ++ b))).

Definition log_Fatal {F} `{logE -< F} {R} (a b : string) : itree F R :=
  v <- trigger (Fatal (a ++ b)) ;; match v : void with end.

(** [string(b)] for a byte slice [b]. *)
Definition string_of_bytes (b : bytes) : string := string_of_list_byte b.

(** [net.JoinHostPort]: a host with a colon in it is an IPv6 literal and
    goes in brackets. *)
Fixpoint has_colon (s : string) : bool :=
  match s with
  | EmptyString => false
  | String c s' => Ascii.eqb c ":"%char || has_colon s'
  end.

Definition JoinHostPort (host port : string) : string :=
  if has_colon host then "[" ++ host ++ "]:" ++ port else host ++ ":" ++ port.

(** [int(u)] for a [uint] (64 bits) and [strconv.Itoa]. *)
Definition int_of_uint (u : Z) : Z :=
  let u := (u mod 2 ^ 64)%Z in
  if (u <? 2 ^ 63)%Z then u else (u - 2 ^ 64)%Z.

Definition Itoa (i : Z) : string := DecimalString.NilZero.string_of_int (Z.to_int i).

(** [ServerConfig.AddHostKey]. *)
Definition AddHostKey (config : ServerConfig) (key : Signer) : ServerConfig :=
  mkServerConfig (ServerVersion config) (PasswordCallback config) (hostKeys config ++ [key]).

(** ** The SSH library's handshake

    [ssh.NewServerConn] is library code.  What the program can see of it:
    while the handshake runs, the library calls the configuration's
    [PasswordCallback] for the password attempts the client makes, and in
    the end it returns either the streams of an established connection or
    an error.  The client's side of it is an answer of the environment,
    and so is the result: what the library makes of the callback's
    answers is not fixed here, every result is possible after every
    sequence of attempts. *)

Definition conn_metadata (c : Conn) (version : bytes) (a : Attempt) : ConnMetadata :=
  mkMeta (att_user a) version (RemoteAddr c).

Fixpoint serverAuthenticate (config : ServerConfig) (c : Conn) (version : bytes)
         (attempts : list Attempt) : itree E unit :=
  match attempts with
  | [] => Ret tt
  | a :: rest =>
      translate inl1 (PasswordCallback config (conn_metadata c version a) (att_password a)) ;;
      serverAuthenticate config c version rest
  end.

Definition ssh_NewServerConn (c : Conn) (config : ServerConfig) : itree E (Established + error) :=
  hs <- trigger (ClientHandshake c) ;;
  serverAuthenticate config c (hs_version hs) (hs_attempts hs) ;;
  Ret (hs_result hs).

(** ** main.go *)

(** The flags, as [flag.Parse] leaves them. *)
Record Flags := mkFlags {
  hostKey : string;
  listenAddress : string;
  port : Z;
  jsonLogging : bool;
  serverVersion : string
}.

Definition default_flags : Flags :=
  mkFlags "" "localhost" 2022 false "SSH-2.0-sshesame".

(** The [PasswordCallback] closure of [main]. *)
Definition passwordCallback (conn : ConnMetadata) (password : bytes)
  : itree logE (option Permissions * option error) :=
  log_WithFields
    [("client", VAddr (meta_RemoteAddr conn));
     ("user", VString (meta_User conn));
     ("password", VString (string_of_bytes password));
     ("version", VString (string_of_bytes (meta_ClientVersion conn)))]
    InfoLevel "Password authentication accepted" ;;
  Ret (None, None).

(** Lines 53 to 65: the configuration. *)
Definition newServerConfig (flags : Flags) (key : Signer) : ServerConfig :=
  AddHostKey (mkServerConfig (serverVersion flags) passwordCallback []) key.

Definition handleConn (serverConfig : ServerConfig) (conn : Conn) : itree E unit :=
  defer (trigger (ConnClose conn))
    (r <- ssh_NewServerConn conn serverConfig ;;
     match r with
     | inr err =>
         log_Warning "Failed to establish SSH connection:" (Error err)
     | inl est =>
         log_WithFields [("client", VAddr (RemoteAddr conn))]
                        InfoLevel "SSH connection established" ;;
         trigger (Go (go_request_Handle (RemoteAddr conn) "global" (est_requests est))) ;;
         range (est_channels est)
               (fun newChannel =>
                  trigger (Go (go_channel_Handle (RemoteAddr conn) newChannel))) ;;
         log_WithFields [("client", VAddr (RemoteAddr conn))]
                        InfoLevel "Client disconnected"
     end).

(** Lines 28 to 51: the host key. *)
Definition provision_key (flags : Flags) : itree E Signer :=
  if negb (hostKey flags =? "") then
    r <- trigger (ReadFile (hostKey flags)) ;;
    match r with
    | inr err => log_Fatal "Failed to read host key:" (Error err)
    | inl keyBytes =>
        r <- trigger (ParsePrivateKey keyBytes) ;;
        match r with
        | inr err => log_Fatal "Failed to parse host key:" (Error err)
        | inl key => Ret key
        end
    end
  else
    r <- trigger GenerateKey ;;
    match r with
    | inr err => log_Fatal "Failed to generate temporary private key:" (Error err)
    | inl (_, keyBytes) =>
        r <- trigger (NewSignerFromSigner keyBytes) ;;
        match r with
        | inr err => log_Fatal "Failed to parse generated private key:" (Error err)
        | inl key =>
            blob <- trigger (Marshal (PublicKey key)) ;;
            sum <- trigger (Sum256 blob) ;;
            log_WithFields [("sha256_fingerprint", VArray32 sum)] WarnLevel
              "Using a temporary host key, consider creating a permanent one and passing it to -host_key" ;;
            Ret key
        end
    end.

(** Lines 76 to 86: one turn of the accept loop. *)
Definition accept_once (serverConfig : ServerConfig) (listener : Listener) : itree E unit :=
  r <- trigger (Accept listener) ;;
  match r with
  | inr err => log_Warning "Failed to accept connection:" (Error err)
  | inl conn =>
      log_WithFields [("client", VAddr (RemoteAddr conn))] InfoLevel "Client connected" ;;
      trigger (Go (go_handleConn serverConfig conn))
  end.

(** Lines 74 to 86: [defer listener.Close()] and the loop. *)
Definition serve (serverConfig : ServerConfig) (listener : Listener) : itree E unit :=
  defer (trigger (ListenerClose listener))
        (ITree.forever (accept_once serverConfig listener)).

Definition main (flags : Flags) : itree E unit :=
  (if jsonLogging flags then trigger (SetFormatter JSONFormatter) else Ret tt) ;;
  key <- provision_key flags ;;
  let serverConfig := newServerConfig flags key in
  r <- trigger (Listen "tcp" (JoinHostPort (listenAddress flags)
                                           (Itoa (int_of_uint (port flags))))) ;;
  match r with
  | inr err => log_Fatal "Failed to listen:" (Error err)
  | inl listener =>
      log_WithFields [("listen_address", VAddr (listener_Addr listener))]
                     InfoLevel "Listening" ;;
      serve serverConfig listener
  end.

(* ===================================================================== *)
(** * Running a tree against an environment *)
(* ===================================================================== *)

(** What an observer of the process sees, in order. *)
Inductive Obs :=
| OFormatter (f : Formatter)
| OLog (r : LogRecord)
| OExit (code : Z)
| OGo (t : Task)
| OConnClose (c : Conn)
| OListenerClose (l : Listener).

(** The environment: what the operating system, the libraries and the
    clients answer; and the trace of what the process has done so far. *)
Record World := mkWorld {
  fs_read : string -> bytes + error;             (* ioutil.ReadFile *)
  ssh_parse : bytes -> Signer + error;           (* ssh.ParsePrivateKey *)
  rand_key : ed25519_PrivateKey + error;         (* ed25519.GenerateKey(nil) *)
  signer_unsupported : ed25519_PrivateKey -> option error;
  ssh_marshal : ssh_PublicKey -> bytes;          (* PublicKey.Marshal *)
  sha256_sum : bytes -> array32;                 (* sha256.Sum256 *)
  net_listen : string -> string -> Listener + error;
  incoming : list (Conn + error);                (* what Accept will return *)
  client : Conn -> Handshake;
  trace : list Obs
}.

Definition emit (o : list Obs) (w : World) : World :=
  mkWorld (fs_read w) (ssh_parse w) (rand_key w) (signer_unsupported w)
          (ssh_marshal w) (sha256_sum w) (net_listen w) (incoming w) (client w)
          (trace w ++ o).

Definition set_incoming (q : list (Conn + error)) (w : World) : World :=
  mkWorld (fs_read w) (ssh_parse w) (rand_key w) (signer_unsupported w)
          (ssh_marshal w) (sha256_sum w) (net_listen w) q (client w)
          (trace w).

(** One event: the answer comes back and the program goes on, or the
    process exits, or the calling goroutine waits for something the
    environment never sends. *)
Variant Step (X : Type) :=
| Resume (x : X) (w : World)
| Halt (w : World)
| Block (w : World).
Arguments Resume {X}.
Arguments Halt {X}.
Arguments Block {X}.

Definition handle_log {X} (e : logE X) (w : World) : Step X :=
  match e with
  | SetFormatter f => Resume tt (emit [OFormatter f] w)
  | Log r => Resume tt (emit [OLog r] w)
  | Fatal msg => Halt (emit [OLog (mkLog FatalLevel [] msg); OExit 1] w)
  end.

Definition handle_sys {X} (e : sysE X) (w : World) : Step X :=
  match e with
  | ReadFile path => Resume (fs_read w path) w
  | ParsePrivateKey pem => Resume (ssh_parse w pem) w
  | GenerateKey =>
      Resume (match rand_key w with
              | inl k => inl (edpriv_Public k, k)
              | inr err => inr err
              end) w
  | NewSignerFromSigner k =>
      Resume (match signer_unsupported w k with
              | None => inl (wrappedSigner k)
              | Some err => inr err
              end) w
  | Marshal k => Resume (ssh_marshal w k) w
  | Sum256 data => Resume (sha256_sum w data) w
  | Listen network address => Resume (net_listen w network address) w
  | Accept _ =>
      match incoming w with
      | r :: q => Resume r (set_incoming q w)
      | [] => Block w
      end
  | ListenerClose l => Resume tt (emit [OListenerClose l] w)
  | ConnClose c => Resume tt (emit [OConnClose c] w)
  | ClientHandshake c => Resume (client w c) w
  | Recv c =>
      match chan_items c with
      | v :: rest => Resume (Some (v, mkChan rest (chan_closes c))) w
      | [] => if chan_closes c then Resume None w else Block w
      end
  | Go t => Resume tt (emit [OGo t] w)
  end.

Definition handle {X} (e : E X) (w : World) : Step X :=
  match e with
  | inl1 e => handle_log e w
  | inr1 e => handle_sys e w
  end.

(** How a run of one goroutine ends. *)
Variant Outcome (R : Type) :=
| Returned (r : R) (w : World)
| Exited (w : World)
| Blocked (w : World)
| OutOfFuel.
Arguments Returned {R}.
Arguments Exited {R}.
Arguments Blocked {R}.
Arguments OutOfFuel {R}.

Fixpoint exec {R} (fuel : nat) (t : itree E R) (w : World) : Outcome R :=
  match fuel with
  | O => OutOfFuel
  | S fuel =>
      match observe t with
      | RetF r => Returned r w
      | TauF t' => exec fuel t' w
      | VisF e k =>
          match handle e w with
          | Resume x w' => exec fuel (k x) w'
          | Halt w' => Exited w'
          | Block w' => Blocked w'
          end
      end
  end.

(** ** Big-step reading of the runner

    [runs t w o]: started in [w], the goroutine [t] ends as [o] says
    (it returns, it exits the process, or it waits for ever), and the
    runner finds that out with some finite fuel. *)
Definition finished {R} (o : Outcome R) : Prop :=
  match o with OutOfFuel => False | _ => True end.

Definition runs {R} (t : itree E R) (w : World) (o : Outcome R) : Prop :=
  finished o /\ exists n, exec n t w = o.

(* ===================================================================== *)
(** * What each function of main.go lets an observer see *)
(* ===================================================================== *)

(** ** The password callback *)

(** The record one password attempt leaves in the log. *)
Definition auth_record (conn : ConnMetadata) (password : bytes) : LogRecord :=
  mkLog InfoLevel
    [("client", VAddr (meta_RemoteAddr conn));
     ("user", VString (meta_User conn));
     ("password", VString (string_of_bytes password));
     ("version", VString (string_of_bytes (meta_ClientVersion conn)))]
    "Password authentication accepted".

(** ** The handshake *)

Definition auth_obs (c : Conn) (hs : Handshake) : list Obs :=
  map (fun a => OLog (auth_record (conn_metadata c (hs_version hs) a) (att_password a)))
      (hs_attempts hs).

(** ** The connection supervisor *)

Definition established_record (conn : Conn) : LogRecord :=
  mkLog InfoLevel [("client", VAddr (RemoteAddr conn))] "SSH connection established".

Definition disconnected_record (conn : Conn) : LogRecord :=
  mkLog InfoLevel [("client", VAddr (RemoteAddr conn))] "Client disconnected".

Definition handshake_failed_record (err : error) : LogRecord :=
  mkLog WarnLevel [] ("Failed to establish SSH connection:" ++ Error err).

Definition request_task (conn : Conn) (est : Established) : Task :=
  go_request_Handle (RemoteAddr conn) "global" (est_requests est).

Definition channel_tasks (conn : Conn) (chs : list NewChannel) : list Obs :=
  map (fun ch => OGo (go_channel_Handle (RemoteAddr conn) ch)) chs.

(** How far a goroutine gets that reads a channel to its end. *)
Definition after_stream {A} (c : Chan A) (w : World) : Outcome unit :=
  if chan_closes c then Returned tt w else Blocked w.

(** Everything [handleConn] lets an observer see, by the client's
    behaviour. *)
Definition dispatch_obs (conn : Conn) (est : Established) : list Obs :=
  [OLog (established_record conn); OGo (request_task conn est)]
    ++ channel_tasks conn (chan_items (est_channels est)).

Definition handleConn_outcome (conn : Conn) (hs : Handshake) (w : World) : Outcome unit :=
  match hs_result hs with
  | inr err =>
      Returned tt (emit (auth_obs conn hs
                           ++ [OLog (handshake_failed_record err); OConnClose conn]) w)
  | inl est =>
      if chan_closes (est_channels est)
      then Returned tt (emit (auth_obs conn hs ++ dispatch_obs conn est
                                ++ [OLog (disconnected_record conn); OConnClose conn]) w)
      else Blocked (emit (auth_obs conn hs ++ dispatch_obs conn est) w)
  end.

(** ** The host key *)

Definition fatal_obs (msg : string) : list Obs :=
  [OLog (mkLog FatalLevel [] msg); OExit 1].

Definition fingerprint_record (sum : array32) : LogRecord :=
  mkLog WarnLevel [("sha256_fingerprint", VArray32 sum)]
    "Using a temporary host key, consider creating a permanent one and passing it to -host_key".

(** The fingerprint line 49 computes for a signer. *)
Definition fingerprint (w : World) (key : Signer) : array32 :=
  sha256_sum w (ssh_marshal w (PublicKey key)).

Definition provision_key_outcome (flags : Flags) (w : World) : Outcome Signer :=
  if negb (hostKey flags =? "") then
    match fs_read w (hostKey flags) with
    | inr err => Exited (emit (fatal_obs ("Failed to read host key:" ++ Error err)) w)
    | inl keyBytes =>
        match ssh_parse w keyBytes with
        | inr err => Exited (emit (fatal_obs ("Failed to parse host key:" ++ Error err)) w)
        | inl key => Returned key w
        end
    end
  else
    match rand_key w with
    | inr err =>
        Exited (emit (fatal_obs ("Failed to generate temporary private key:" ++ Error err)) w)
    | inl k =>
        match signer_unsupported w k with
        | Some err =>
            Exited (emit (fatal_obs ("Failed to parse generated private key:" ++ Error err)) w)
        | None =>
            Returned (wrappedSigner k)
                     (emit [OLog (fingerprint_record (fingerprint w (wrappedSigner k)))] w)
        end
    end.

(** ** The accept loop *)

Definition accept_failed_record (err : error) : LogRecord :=
  mkLog WarnLevel [] ("Failed to accept connection:" ++ Error err).

Definition connected_record (conn : Conn) : LogRecord :=
  mkLog InfoLevel [("client", VAddr (RemoteAddr conn))] "Client connected".

(** What one result of [Accept] makes the loop do. *)
Definition accept_obs (serverConfig : ServerConfig) (r : Conn + error) : list Obs :=
  match r with
  | inr err => [OLog (accept_failed_record err)]
  | inl conn => [OLog (connected_record conn); OGo (go_handleConn serverConfig conn)]
  end.

(** ** The whole of [main] *)

Definition formatter_obs (flags : Flags) : list Obs :=
  if jsonLogging flags then [OFormatter JSONFormatter] else [].

Definition listen_address (flags : Flags) : string :=
  JoinHostPort (listenAddress flags) (Itoa (int_of_uint (port flags))).

Definition listening_record (listener : Listener) : LogRecord :=
  mkLog InfoLevel [("listen_address", VAddr (listener_Addr listener))] "Listening".

Definition main_outcome (flags : Flags) (w : World) : Outcome unit :=
  match provision_key_outcome flags (emit (formatter_obs flags) w) with
  | Returned key w1 =>
      match net_listen w "tcp" (listen_address flags) with
      | inr err => Exited (emit (fatal_obs ("Failed to listen:" ++ Error err)) w1)
      | inl listener =>
          Blocked (set_incoming []
                     (emit (OLog (listening_record listener)
                              :: flat_map (accept_obs (newServerConfig flags key)) (incoming w))
                           w1))
      end
  | Exited w1 => Exited w1
  | Blocked w1 => Blocked w1
  | OutOfFuel => OutOfFuel
  end.

(* ===================================================================== *)
(** * Reading a trace *)
(* ===================================================================== *)

(** The worlds a run can end in. *)
Definition world_of {R} (o : Outcome R) : option World :=
  match o with
  | Returned _ w | Exited w | Blocked w => Some w
  | OutOfFuel => None
  end.

(** What a run added to the trace. *)
Definition emitted (w w' : World) : list Obs :=
  skipn (List.length (trace w)) (trace w').

Definition emitted_by {R} (w : World) (o : Outcome R) : list Obs :=
  match o with
  | Returned _ w' | Exited w' | Blocked w' => emitted w w'
  | OutOfFuel => []
  end.

(** The goroutines started, and the records logged. *)
Fixpoint tasks_of (obs : list Obs) : list Task :=
  match obs with
  | [] => []
  | OGo t :: rest => t :: tasks_of rest
  | _ :: rest => tasks_of rest
  end.

Fixpoint logs_of (obs : list Obs) : list LogRecord :=
  match obs with
  | [] => []
  | OLog r :: rest => r :: logs_of rest
  | _ :: rest => logs_of rest
  end.

Definition is_request_task (t : Task) : bool :=
  match t with go_request_Handle _ _ _ => true | _ => false end.

Definition is_fingerprint (r : LogRecord) : bool :=
  match log_level r, log_fields r with
  | WarnLevel, [(k, VArray32 _)] => k =? "sha256_fingerprint"
  | _, _ => false
  end.

(** The goroutines of the connections [conns] run one after the other,
    each to its return. *)
Inductive handshakes_run (serverConfig : ServerConfig) : list Conn -> World -> World -> Prop :=
| handshakes_nil w : handshakes_run serverConfig [] w w
| handshakes_cons conn conns w w1 w2 :
    runs (handleConn serverConfig conn) w (Returned tt w1) ->
    handshakes_run serverConfig conns w1 w2 ->
    handshakes_run serverConfig (conn :: conns) w w2.

(* ===================================================================== *)
(** * Scenarios *)
(* ===================================================================== *)

Definition sum_zero : array32 := mkArray32 (repeat x00 32) eq_refl.

Definition ed_key : ed25519_PrivateKey :=
  mkEdPriv (list_byte_of_string "seed") (mkEdPub (list_byte_of_string "public")).

Definition file_key : Signer :=
  parsedSigner (parsedPublicKey algo_rsa (list_byte_of_string "rsa-public"))
               (list_byte_of_string "rsa-secret").

Definition addr1 : Addr := mkAddr "tcp" "203.0.113.7:50022".
Definition conn1 : Conn := mkConn 1 addr1.
Definition conn2 : Conn := mkConn 2 (mkAddr "tcp" "198.51.100.9:40100").

Definition openssh : bytes := list_byte_of_string "SSH-2.0-OpenSSH_7.4".
Definition root_hunter2 : Attempt := mkAttempt "root" (list_byte_of_string "hunter2").

(** A client that logs in, opens one session channel and disconnects. *)
Definition hs_session : Handshake :=
  mkHandshake openssh [root_hunter2]
    (inl (mkEstablished (mkChan [mkNewChannel "session" []] true) (mkChan [] true))).

(** A client that logs in, opens a session and stays. *)
Definition hs_staying : Handshake :=
  mkHandshake openssh [root_hunter2]
    (inl (mkEstablished (mkChan [mkNewChannel "session" []] false) (mkChan [] false))).

(** A port scanner: the handshake fails before any authentication. *)
Definition hs_scanner : Handshake :=
  mkHandshake [] [] (inr (mkError "EOF")).

(** A client that sends its password and is gone before the server's
    answer can be written. *)
Definition hs_gone : Handshake :=
  mkHandshake openssh [root_hunter2] (inr (mkError "write: broken pipe")).

(** A machine with no key file, a working random source and a free port,
    where every client behaves as [hs] says and [Accept] has [q] to
    return. *)
Definition machine (q : list (Conn + error)) (hs : Handshake) : World :=
  mkWorld (fun _ => inr (mkError "no such file or directory"))
          (fun _ => inr (mkError "ssh: no key found"))
          (inl ed_key)
          (fun _ => None)
          (fun _ => list_byte_of_string "blob")
          (fun _ => sum_zero)
          (fun _ address => inl (mkListener (mkAddr "tcp" address)))
          q
          (fun _ => hs)
          [].

(** Variations of the machine for the start-up paths. *)
Definition with_files (read : string -> bytes + error) (parse : bytes -> Signer + error)
           (w : World) : World :=
  mkWorld read parse (rand_key w) (signer_unsupported w) (ssh_marshal w) (sha256_sum w)
          (net_listen w) (incoming w) (client w) (trace w).

Definition with_rand (r : ed25519_PrivateKey + error) (w : World) : World :=
  mkWorld (fs_read w) (ssh_parse w) r (signer_unsupported w) (ssh_marshal w) (sha256_sum w)
          (net_listen w) (incoming w) (client w) (trace w).

Definition with_listen (l : string -> string -> Listener + error) (w : World) : World :=
  mkWorld (fs_read w) (ssh_parse w) (rand_key w) (signer_unsupported w) (ssh_marshal w)
          (sha256_sum w) l (incoming w) (client w) (trace w).

Definition keyfile_flags : Flags :=
  mkFlags "/etc/sshesame/host_key" "localhost" 2022 false "SSH-2.0-sshesame".

(** One client is waiting to be accepted; the key file is missing, or is
    not a key, or is a key; or the random source fails; or the port is
    taken. *)
Definition w_waiting : World := machine [inl conn1] hs_session.

Definition w_unparseable : World :=
  with_files (fun _ => inl (list_byte_of_string "not a key"))
             (fun _ => inr (mkError "ssh: no key found")) w_waiting.

Definition w_keyfile : World :=
  with_files (fun _ => inl (list_byte_of_string "PEM")) (fun _ => inl file_key) w_waiting.

Definition w_no_entropy : World := with_rand (inr (mkError "EOF")) w_waiting.

Definition w_port_taken : World :=
  with_listen (fun _ _ => inr (mkError "bind: address already in use")) w_waiting.

(* ===================================================================== *)
(** * The claims, as the specification states them, where the code differs *)
(* ===================================================================== *)

(** C2 as stated: an established connection starts two goroutines of its
    own, and one more for every channel. *)
Definition two_dispatch_tasks (flags : Flags) (key : Signer) (conn : Conn) (w : World) : Prop :=
  forall est o,
    hs_result (client w conn) = inl est ->
    runs (handleConn (newServerConfig flags key) conn) w o ->
    List.length (tasks_of (emitted_by w o)) = 2 + List.length (chan_items (est_channels est)).

(** C9 as stated: a connection whose handshake fails leaves two records,
    "Client connected" and the warning. *)
Definition only_two_records (flags : Flags) (key : Signer) (conn : Conn) (w : World) : Prop :=
  forall err w',
    hs_result (client w conn) = inr err ->
    runs (handleConn (newServerConfig flags key) conn) w (Returned tt w') ->
    logs_of (accept_obs (newServerConfig flags key) (inl conn) ++ emitted w w')
    = [connected_record conn; handshake_failed_record err].

(* ===================================================================== *)
(** * The whole process *)
(* ===================================================================== *)

(** The sockets closed, in order. *)
Fixpoint closes_of (obs : list Obs) : list Conn :=
  match obs with
  | [] => []
  | OConnClose c :: rest => c :: closes_of rest
  | _ :: rest => closes_of rest
  end.

Definition is_formatter (o : Obs) : bool :=
  match o with OFormatter _ => true | _ => false end.

Definition is_listener_close (o : Obs) : bool :=
  match o with OListenerClose _ => true | _ => false end.

Definition is_warning (r : LogRecord) : bool :=
  match log_level r with WarnLevel => true | _ => false end.

Definition is_established (r : LogRecord) : bool :=
  log_msg r =? "SSH connection established".

(** The address a goroutine is started with. *)
Definition task_remote (t : Task) : Addr :=
  match t with
  | go_handleConn _ conn => RemoteAddr conn
  | go_request_Handle remote _ _ => remote
  | go_channel_Handle remote _ => remote
  end.

(** The connections among the results of [Accept]. *)
Definition accepted (q : list (Conn + error)) : list Conn :=
  flat_map (fun r => match r with inl conn => [conn] | inr _ => [] end) q.

(** A client lets [handleConn] come to its end: its handshake fails, or
    its channel stream ends. *)
Definition finishes (hs : Handshake) : bool :=
  match hs_result hs with
  | inr _ => true
  | inl est => chan_closes (est_channels est)
  end.

(** Everything one run of [handleConn] adds to the trace. *)
Definition handleConn_obs (conn : Conn) (hs : Handshake) : list Obs :=
  match hs_result hs with
  | inr err => auth_obs conn hs ++ [OLog (handshake_failed_record err); OConnClose conn]
  | inl est =>
      auth_obs conn hs ++ dispatch_obs conn est
        ++ (if chan_closes (est_channels est)
            then [OLog (disconnected_record conn); OConnClose conn]
            else [])
  end.

(** The goroutines of the connections [conns], each run as far as it
    gets (to its return, or to where it waits for ever), one after the
    other. *)
Inductive goroutines_run (serverConfig : ServerConfig) : list Conn -> World -> World -> Prop :=
| goroutines_nil w : goroutines_run serverConfig [] w w
| goroutines_cons conn conns w o w1 w2 :
    runs (handleConn serverConfig conn) w o ->
    world_of o = Some w1 ->
    goroutines_run serverConfig conns w1 w2 ->
    goroutines_run serverConfig (conn :: conns) w w2.

(** The environment with another random source and another verdict of
    [ssh.NewSignerFromSigner]. *)
Definition with_keygen (r : ed25519_PrivateKey + error)
           (unsupported : ed25519_PrivateKey -> option error) (w : World) : World :=
  mkWorld (fs_read w) (ssh_parse w) r unsupported (ssh_marshal w) (sha256_sum w)
          (net_listen w) (incoming w) (client w) (trace w).

(** The environment after other goroutines have logged [o] and the
    accept loop has taken its queue to [q]. *)
Definition later (o : list Obs) (q : list (Conn + error)) (w : World) : World :=
  set_incoming q (emit o w).

(** The random source works but [ssh.NewSignerFromSigner] rejects the
    key. *)
Definition w_rejected_key : World :=
  with_keygen (inl ed_key) (fun _ => Some (mkError "ssh: unsupported key type")) w_waiting.

(* ===================================================================== *)
(** * Facts about the runner *)
(* ===================================================================== *)

Lemma exec_S {R} n (t : itree E R) w :
  exec (S n) t w =
  match observe t with
  | RetF r => Returned r w
  | TauF t' => exec n t' w
  | VisF e k =>
      match handle e w with
      | Resume x w' => exec n (k x) w'
      | Halt w' => Exited w'
      | Block w' => Blocked w'
      end
  end.
Proof. reflexivity. Qed.

(** The runner looks at a tree through [observe] only. *)
Lemma exec_observing {R} n (t u : itree E R) w :
  observe t = observe u -> exec n t w = exec n u w.
Proof.
  intros Heq. destruct n as [|n]; [reflexivity|].
  rewrite !exec_S, Heq. reflexivity.
Qed.

(** More fuel never changes a finished run. *)
Lemma exec_mono {R} n : forall (t : itree E R) w o,
    exec n t w = o -> o <> OutOfFuel ->
    forall m, n <= m -> exec m t w = o.
Proof.
  induction n as [|n IH]; intros t w o Hrun Hfin m Hle.
  - simpl in Hrun. congruence.
  - destruct m as [|m]; [lia|].
    rewrite exec_S in *. destruct (observe t) as [r|t'|X e k].
    + exact Hrun.
    + apply IH; auto. lia.
    + destruct (handle e w); auto. apply IH; auto. lia.
Qed.

Lemma finished_fuel {R} (o : Outcome R) : finished o -> o <> OutOfFuel.
Proof. destruct o; simpl; congruence. Qed.

Lemma runs_fuel {R} n (t : itree E R) w o :
  exec n t w = o -> finished o -> runs t w o.
Proof. intros H F. split; eauto. Qed.

(** A goroutine ends in one way only. *)
Lemma runs_det {R} (t : itree E R) w o1 o2 :
  runs t w o1 -> runs t w o2 -> o1 = o2.
Proof.
  intros [F1 [n1 H1]] [F2 [n2 H2]].
  apply finished_fuel in F1, F2.
  rewrite <- (exec_mono n1 t w o1 H1 F1 (n1 + n2)) by lia.
  rewrite <- (exec_mono n2 t w o2 H2 F2 (n1 + n2)) by lia.
  reflexivity.
Qed.

Lemma runs_observing {R} (t u : itree E R) w o :
  observe t = observe u -> runs u w o -> runs t w o.
Proof.
  intros Heq [F [n H]]. split; [exact F|].
  exists n. rewrite (exec_observing n t u w Heq). exact H.
Qed.

Lemma runs_ret {R} (r : R) w : runs (Ret r) w (Returned r w).
Proof. apply (runs_fuel 1); simpl; auto. Qed.

Lemma runs_tau {R} (t : itree E R) w o : runs t w o -> runs (Tau t) w o.
Proof. intros [F [n H]]. split; [exact F|]. exists (S n). exact H. Qed.

Lemma runs_vis {R X} (e : E X) (k : X -> itree E R) w x w' o :
  handle e w = Resume x w' -> runs (k x) w' o -> runs (Vis e k) w o.
Proof.
  intros He [F [n H]]. split; [exact F|].
  exists (S n). rewrite exec_S. cbn. rewrite He. exact H.
Qed.

Lemma runs_vis_halt {R X} (e : E X) (k : X -> itree E R) w w' :
  handle e w = Halt w' -> runs (Vis e k) w (Exited w').
Proof.
  intros He. apply (runs_fuel 1); simpl; auto. rewrite He. reflexivity.
Qed.

Lemma runs_vis_block {R X} (e : E X) (k : X -> itree E R) w w' :
  handle e w = Block w' -> runs (Vis e k) w (Blocked w').
Proof.
  intros He. apply (runs_fuel 1); simpl; auto. rewrite He. reflexivity.
Qed.

(** ** Sequencing *)

Lemma exec_bind {A B} n : forall (t : itree E A) (k : A -> itree E B) w r w',
    exec n t w = Returned r w' ->
    forall m o, exec m (k r) w' = o -> o <> OutOfFuel ->
    exec (n + m) (ITree.bind t k) w = o.
Proof.
  induction n as [|n IH]; intros t k w r w' Ht m o Hk Hfin.
  - simpl in Ht. congruence.
  - change (S n + m) with (S (n + m)).
    rewrite exec_S in Ht. rewrite exec_S, observe_bind.
    destruct (observe t) as [r0|t'|X e h].
    + injection Ht as -> ->.
      rewrite <- exec_S. apply (exec_mono m); auto. lia.
    + cbn. eapply IH; eauto.
    + cbn. destruct (handle e w); try congruence. eapply IH; eauto.
Qed.

Lemma exec_bind_stuck {A B} n : forall (t : itree E A) (k : A -> itree E B) w,
    match exec n t w with
    | Returned _ _ => True
    | Exited w' => exec n (ITree.bind t k) w = Exited w'
    | Blocked w' => exec n (ITree.bind t k) w = Blocked w'
    | OutOfFuel => True
    end.
Proof.
  induction n as [|n IH]; intros t k w.
  - exact I.
  - rewrite !exec_S, observe_bind.
    destruct (observe t) as [r0|t'|X e h].
    + exact I.
    + cbn. apply IH.
    + cbn. destruct (handle e w); auto. apply IH.
Qed.

Lemma runs_bind {A B} (t : itree E A) (k : A -> itree E B) w r w' o :
  runs t w (Returned r w') -> runs (k r) w' o -> runs (ITree.bind t k) w o.
Proof.
  intros [_ [n Ht]] [F [m Hk]]. split; [exact F|].
  exists (n + m). eapply exec_bind; eauto using finished_fuel.
Qed.

Lemma runs_bind_exited {A B} (t : itree E A) (k : A -> itree E B) w w' :
  runs t w (Exited w') -> runs (ITree.bind t k) w (Exited w').
Proof.
  intros [_ [n Ht]]. split; [exact I|]. exists n.
  pose proof (exec_bind_stuck n t k w) as H. rewrite Ht in H. exact H.
Qed.

Lemma runs_bind_blocked {A B} (t : itree E A) (k : A -> itree E B) w w' :
  runs t w (Blocked w') -> runs (ITree.bind t k) w (Blocked w').
Proof.
  intros [_ [n Ht]]. split; [exact I|]. exists n.
  pose proof (exec_bind_stuck n t k w) as H. rewrite Ht in H. exact H.
Qed.

Lemma runs_trigger {X} (e : E X) w x w' :
  handle e w = Resume x w' -> runs (ITree.trigger e) w (Returned x w').
Proof. intros He. eapply runs_vis; [exact He | apply runs_ret]. Qed.

(** ** Loops *)

Lemma runs_forever {A B} (t : itree E A) w r w' (o : Outcome B) :
  runs t w (Returned r w') -> runs (ITree.forever t) w' o ->
  runs (ITree.forever t) w o.
Proof.
  intros Ht Hloop.
  apply (runs_observing _ _ _ _ (observing_observe (unfold_forever_ t))).
  eapply runs_bind; [exact Ht|]. apply runs_tau. exact Hloop.
Qed.

Lemma runs_forever_blocked {A B} (t : itree E A) w w' :
  runs t w (Blocked w') -> runs (@ITree.forever E A B t) w (Blocked w').
Proof.
  intros Ht.
  apply (runs_observing _ _ _ _ (observing_observe (unfold_forever_ t))).
  apply runs_bind_blocked. exact Ht.
Qed.

Lemma runs_iter_again {I R} (step : I -> itree E (I + R)) i w j w' o :
  runs (step i) w (Returned (inl j) w') -> runs (ITree.iter step j) w' o ->
  runs (ITree.iter step i) w o.
Proof.
  intros Hs Hloop.
  apply (runs_observing _ _ _ _ (observing_observe (unfold_aloop_ step i))).
  eapply runs_bind; [exact Hs|]. apply runs_tau. exact Hloop.
Qed.

Lemma runs_iter_done {I R} (step : I -> itree E (I + R)) i w r w' :
  runs (step i) w (Returned (inr r) w') ->
  runs (ITree.iter step i) w (Returned r w').
Proof.
  intros Hs.
  apply (runs_observing _ _ _ _ (observing_observe (unfold_aloop_ step i))).
  eapply runs_bind; [exact Hs|]. apply runs_ret.
Qed.

Lemma runs_iter_blocked {I R} (step : I -> itree E (I + R)) i w w' :
  runs (step i) w (Blocked w') ->
  runs (ITree.iter step i) w (Blocked w').
Proof.
  intros Hs.
  apply (runs_observing _ _ _ _ (observing_observe (unfold_aloop_ step i))).
  apply runs_bind_blocked. exact Hs.
Qed.

(** ** The trace *)

Lemma emit_nil w : emit [] w = w.
Proof. destruct w. unfold emit. simpl. rewrite app_nil_r. reflexivity. Qed.

Lemma emit_emit a b w : emit b (emit a w) = emit (a ++ b) w.
Proof. unfold emit. simpl. rewrite app_assoc. reflexivity. Qed.

Lemma set_incoming_emit q o w : set_incoming q (emit o w) = emit o (set_incoming q w).
Proof. reflexivity. Qed.

Lemma runs_same {R} (t : itree E R) w o o' : runs t w o -> o = o' -> runs t w o'.
Proof. intros H <-. exact H. Qed.

(** Closes a goal whose two worlds differ in the bracketing of the trace. *)
Ltac same_world :=
  unfold emit; simpl; repeat rewrite <- app_assoc; simpl;
  solve [ reflexivity | apply runs_ret ].

(* ===================================================================== *)
(** * The functions of main.go, run *)
(* ===================================================================== *)

Lemma passwordCallback_runs conn password w :
  runs (translate inl1 (passwordCallback conn password)) w
       (Returned (None, None) (emit [OLog (auth_record conn password)] w)).
Proof. apply (runs_fuel 2); [reflexivity | exact I]. Qed.

Lemma serverAuthenticate_runs flags key c version attempts : forall w,
  runs (serverAuthenticate (newServerConfig flags key) c version attempts) w
       (Returned tt
          (emit (map (fun a => OLog (auth_record (conn_metadata c version a)
                                                (att_password a))) attempts) w)).
Proof.
  induction attempts as [|a rest IH]; intros w; simpl.
  - rewrite emit_nil. apply runs_ret.
  - eapply runs_bind; [apply passwordCallback_runs|].
    specialize (IH (emit [OLog (auth_record (conn_metadata c version a) (att_password a))] w)).
    rewrite emit_emit in IH. exact IH.
Qed.

Lemma ssh_NewServerConn_runs flags key c w :
  runs (ssh_NewServerConn c (newServerConfig flags key)) w
       (Returned (hs_result (client w c)) (emit (auth_obs c (client w c)) w)).
Proof.
  unfold ssh_NewServerConn.
  eapply runs_bind; [apply runs_trigger; reflexivity|].
  eapply runs_bind; [apply serverAuthenticate_runs|].
  apply runs_ret.
Qed.

Lemma range_runs conn closes : forall items w,
  runs (range (mkChan items closes)
              (fun newChannel => trigger (Go (go_channel_Handle (RemoteAddr conn) newChannel))))
       w
       (after_stream (mkChan items closes) (emit (channel_tasks conn items) w)).
Proof.
  unfold range, after_stream.
  induction items as [|ch rest IH]; intros w; simpl.
  - rewrite emit_nil. destruct closes.
    + apply runs_iter_done.
      eapply runs_bind; [apply runs_trigger; reflexivity|]. apply runs_ret.
    + apply runs_iter_blocked.
      apply runs_bind_blocked. apply runs_vis_block. reflexivity.
  - eapply runs_iter_again.
    + eapply runs_bind; [apply runs_trigger; reflexivity|].
      eapply runs_bind; [apply runs_trigger; reflexivity|].
      apply runs_ret.
    + simpl. specialize (IH (emit [OGo (go_channel_Handle (RemoteAddr conn) ch)] w)).
      rewrite emit_emit in IH. simpl in IH. exact IH.
Qed.

Lemma handleConn_runs flags key conn w :
  runs (handleConn (newServerConfig flags key) conn) w
       (handleConn_outcome conn (client w conn) w).
Proof.
  unfold handleConn, handleConn_outcome, defer.
  pose proof (ssh_NewServerConn_runs flags key conn w) as Hhs.
  destruct (hs_result (client w conn)) as [est|err].
  - destruct est as [[items closes] reqs]. simpl.
    pose proof (range_runs conn closes items
                  (emit (auth_obs conn (client w conn)
                           ++ [OLog (established_record conn);
                               OGo (request_task conn (mkEstablished (mkChan items closes) reqs))])
                        w)) as Hrange.
    unfold after_stream in Hrange. simpl in Hrange. rewrite emit_emit in Hrange.
    destruct closes.
    + eapply runs_bind.
      * eapply runs_bind; [exact Hhs|].
        eapply runs_bind; [apply runs_trigger; reflexivity|].
        eapply runs_bind; [apply runs_trigger; reflexivity|].
        rewrite !emit_emit.
        eapply runs_bind; [exact Hrange|].
        apply runs_trigger. reflexivity.
      * eapply runs_bind; [apply runs_trigger; reflexivity|].
        simpl. rewrite !emit_emit. same_world.
    + apply runs_bind_blocked.
      eapply runs_bind; [exact Hhs|].
      eapply runs_bind; [apply runs_trigger; reflexivity|].
      eapply runs_bind; [apply runs_trigger; reflexivity|].
      rewrite !emit_emit.
      apply runs_bind_blocked.
      eapply runs_same; [exact Hrange|]. same_world.
  - eapply runs_bind.
    + eapply runs_bind; [exact Hhs|]. apply runs_trigger. reflexivity.
    + eapply runs_bind; [apply runs_trigger; reflexivity|].
      simpl. rewrite !emit_emit. same_world.
Qed.

Lemma log_Fatal_runs {R} a b w :
  runs (@log_Fatal E _ R a b) w (Exited (emit (fatal_obs (a ++ b)) w)).
Proof. apply runs_bind_exited. apply runs_vis_halt. reflexivity. Qed.

Lemma provision_key_runs flags w :
  runs (provision_key flags) w (provision_key_outcome flags w).
Proof.
  unfold provision_key, provision_key_outcome.
  destruct (negb (hostKey flags =? "")).
  - eapply runs_bind; [apply runs_trigger; reflexivity|].
    destruct (fs_read w (hostKey flags)) as [keyBytes|err]; [|apply log_Fatal_runs].
    eapply runs_bind; [apply runs_trigger; reflexivity|].
    destruct (ssh_parse w keyBytes) as [key|err]; [apply runs_ret | apply log_Fatal_runs].
  - eapply runs_bind; [apply runs_trigger; reflexivity|].
    destruct (rand_key w) as [k|err]; [|apply log_Fatal_runs].
    eapply runs_bind; [apply runs_trigger; reflexivity|].
    destruct (signer_unsupported w k) as [err|]; [apply log_Fatal_runs|].
    eapply runs_bind; [apply runs_trigger; reflexivity|].
    eapply runs_bind; [apply runs_trigger; reflexivity|].
    eapply runs_bind; [apply runs_trigger; reflexivity|].
    apply runs_ret.
Qed.

Lemma accept_once_runs serverConfig listener w r q :
  incoming w = r :: q ->
  runs (accept_once serverConfig listener) w
       (Returned tt (emit (accept_obs serverConfig r) (set_incoming q w))).
Proof.
  intros Hin. unfold accept_once.
  eapply runs_bind.
  - apply runs_trigger. cbn. rewrite Hin. reflexivity.
  - destruct r as [conn|err]; simpl.
    + eapply runs_bind; [apply runs_trigger; reflexivity|].
      eapply runs_same; [apply runs_trigger; reflexivity|].
      rewrite emit_emit. reflexivity.
    + apply runs_trigger. reflexivity.
Qed.

Lemma accept_once_blocks serverConfig listener w :
  incoming w = [] ->
  runs (accept_once serverConfig listener) w (Blocked w).
Proof.
  intros Hin. unfold accept_once.
  apply runs_bind_blocked. apply runs_vis_block. cbn. rewrite Hin. reflexivity.
Qed.

(** The loop works through every result [Accept] has for it and then
    waits in [Accept] again. *)
Lemma accept_loop_runs {R} serverConfig listener : forall q w,
  incoming w = q ->
  runs (@ITree.forever E unit R (accept_once serverConfig listener)) w
       (Blocked (emit (flat_map (accept_obs serverConfig) q) (set_incoming [] w))).
Proof.
  induction q as [|r q IH]; intros w Hin.
  - simpl. rewrite emit_nil. apply runs_forever_blocked.
    eapply runs_same; [apply accept_once_blocks; exact Hin|].
    f_equal. destruct w; simpl in *. subst. reflexivity.
  - eapply runs_forever; [apply accept_once_runs; exact Hin|].
    eapply runs_same; [apply IH; reflexivity|].
    f_equal. simpl. unfold emit, set_incoming. simpl. rewrite <- app_assoc. reflexivity.
Qed.

Lemma serve_runs serverConfig listener w :
  runs (serve serverConfig listener) w
       (Blocked (emit (flat_map (accept_obs serverConfig) (incoming w)) (set_incoming [] w))).
Proof.
  unfold serve, defer. apply runs_bind_blocked. apply accept_loop_runs. reflexivity.
Qed.

Lemma formatter_runs flags w :
  runs (if jsonLogging flags then trigger (SetFormatter JSONFormatter) else Ret tt : itree E unit)
       w (Returned tt (emit (formatter_obs flags) w)).
Proof.
  unfold formatter_obs. destruct (jsonLogging flags).
  - apply runs_trigger. reflexivity.
  - rewrite emit_nil. apply runs_ret.
Qed.

Lemma provision_key_frame flags w key w1 :
  provision_key_outcome flags w = Returned key w1 ->
  exists o, w1 = emit o w.
Proof.
  unfold provision_key_outcome. intros H.
  repeat match type of H with
         | (if ?c then _ else _) = _ => destruct c
         | match ?c with _ => _ end = _ => destruct c
         end; inversion H; subst; eauto.
  exists []. symmetry. apply emit_nil.
Qed.

Lemma main_runs flags w : runs (main flags) w (main_outcome flags w).
Proof.
  unfold main, main_outcome.
  eapply runs_bind; [apply formatter_runs|].
  pose proof (provision_key_runs flags (emit (formatter_obs flags) w)) as Hkey.
  destruct (provision_key_outcome flags (emit (formatter_obs flags) w))
    as [key w1|w1|w1|] eqn:Hout.
  - destruct (provision_key_frame _ _ _ _ Hout) as [o ->].
    eapply runs_bind; [exact Hkey|].
    eapply runs_bind; [apply runs_trigger; reflexivity|].
    fold (listen_address flags). fold (newServerConfig flags key).
    change (net_listen (emit o (emit (formatter_obs flags) w)))
      with (net_listen w).
    destruct (net_listen w "tcp" (listen_address flags)) as [listener|err];
      [|apply log_Fatal_runs].
    eapply runs_bind; [apply runs_trigger; reflexivity|].
    eapply runs_same; [apply serve_runs|].
    f_equal. unfold emit, set_incoming. simpl. rewrite <- !app_assoc. reflexivity.
  - apply runs_bind_exited. exact Hkey.
  - apply runs_bind_blocked. exact Hkey.
  - destruct Hkey as [[] _].
Qed.

(** ** The program on the scenarios *)

Example listen_address_default : listen_address default_flags = "localhost:2022".
Proof. reflexivity. Qed.

Example JoinHostPort_ipv6 : JoinHostPort "::1" (Itoa 2022) = "[::1]:2022".
Proof. reflexivity. Qed.

Example int_of_uint_wraps : int_of_uint (2 ^ 64 - 1) = (-1)%Z /\ Itoa (-1) = "-1".
Proof. split; reflexivity. Qed.

(** The end-to-end scenario: root logs in with hunter2, opens a session
    and disconnects. *)
Example session_trace :
  exec 12 (handleConn (newServerConfig default_flags (wrappedSigner ed_key)) conn1)
       (machine [] hs_session)
  = Returned tt
      (emit [OLog (mkLog InfoLevel
                     [("client", VAddr addr1); ("user", VString "root");
                      ("password", VString "hunter2");
                      ("version", VString "SSH-2.0-OpenSSH_7.4")]
                     "Password authentication accepted");
             OLog (mkLog InfoLevel [("client", VAddr addr1)] "SSH connection established");
             OGo (go_request_Handle addr1 "global" (mkChan [] true));
             OGo (go_channel_Handle addr1 (mkNewChannel "session" []));
             OLog (mkLog InfoLevel [("client", VAddr addr1)] "Client disconnected");
             OConnClose conn1]
            (machine [] hs_session)).
Proof. reflexivity. Qed.

(** With too little fuel the runner says so. *)
Example session_needs_fuel :
  exec 5 (handleConn (newServerConfig default_flags (wrappedSigner ed_key)) conn1)
       (machine [] hs_session) = OutOfFuel.
Proof. reflexivity. Qed.

(** [main] with the default flags, one failed [Accept] and one client. *)
Example main_trace :
  exec 30 (main default_flags) (machine [inr (mkError "EMFILE"); inl conn1] hs_session)
  = Blocked
      (emit [OLog (fingerprint_record sum_zero);
             OLog (mkLog InfoLevel
                     [("listen_address", VAddr (mkAddr "tcp" "localhost:2022"))] "Listening");
             OLog (mkLog WarnLevel [] "Failed to accept connection:EMFILE");
             OLog (mkLog InfoLevel [("client", VAddr addr1)] "Client connected");
             OGo (go_handleConn (newServerConfig default_flags (wrappedSigner ed_key)) conn1)]
            (machine [] hs_session)).
Proof. reflexivity. Qed.

(** ** Reading a trace *)

Lemma emitted_emit o w : emitted w (emit o w) = o.
Proof.
  unfold emitted. simpl. induction (trace w) as [|x l IH]; simpl; auto.
Qed.

Lemma emitted_emit2 o q w : emitted w (emit o (set_incoming q w)) = o.
Proof. exact (emitted_emit o (set_incoming q w)). Qed.

Lemma tasks_of_app a b : tasks_of (a ++ b) = tasks_of a ++ tasks_of b.
Proof.
  induction a as [|[] a IH]; simpl; auto. rewrite IH. reflexivity.
Qed.

Lemma logs_of_app a b : logs_of (a ++ b) = logs_of a ++ logs_of b.
Proof.
  induction a as [|[] a IH]; simpl; auto. rewrite IH. reflexivity.
Qed.

Lemma tasks_of_auth conn hs : tasks_of (auth_obs conn hs) = [].
Proof. unfold auth_obs. induction (hs_attempts hs); simpl; auto. Qed.

Lemma logs_of_auth conn hs :
  logs_of (auth_obs conn hs) =
  map (fun a => auth_record (conn_metadata conn (hs_version hs) a) (att_password a))
      (hs_attempts hs).
Proof. unfold auth_obs. induction (hs_attempts hs); simpl; auto. rewrite IHl. reflexivity. Qed.

Lemma tasks_of_channels conn chs :
  tasks_of (channel_tasks conn chs) = map (go_channel_Handle (RemoteAddr conn)) chs.
Proof. induction chs; simpl; auto. rewrite IHchs. reflexivity. Qed.

Lemma logs_of_channels conn chs : logs_of (channel_tasks conn chs) = [].
Proof. induction chs; simpl; auto. Qed.

(* ===================================================================== *)
(** * The claims *)
(* ===================================================================== *)

Lemma handleConn_det flags key conn w o :
  runs (handleConn (newServerConfig flags key) conn) w o ->
  o = handleConn_outcome conn (client w conn) w.
Proof. intros H. eapply runs_det; [exact H | apply handleConn_runs]. Qed.

Lemma auth_msg conn hs r :
  In r (logs_of (auth_obs conn hs)) -> log_msg r = "Password authentication accepted".
Proof.
  rewrite logs_of_auth, in_map_iff. intros [a [<- _]]. reflexivity.
Qed.

(** C1: whatever the user name and the password, the callback returns
    nil permissions and a nil error, and logs one record holding the
    client address, the user, the password and the client version as
    they were supplied; a handshake with several attempts logs one
    record per attempt, in order. *)
Theorem C1_password_always_accepted
        (conn : ConnMetadata) (password : bytes) (w : World)
        (flags : Flags) (key : Signer) (c : Conn) :
  runs (translate inl1 (passwordCallback conn password)) w
       (Returned (None, None)
          (emit [OLog (mkLog InfoLevel
                         [("client", VAddr (meta_RemoteAddr conn));
                          ("user", VString (meta_User conn));
                          ("password", VString (string_of_bytes password));
                          ("version", VString (string_of_bytes (meta_ClientVersion conn)))]
                         "Password authentication accepted")] w))
  /\ list_byte_of_string (string_of_bytes password) = password
  /\ list_byte_of_string (string_of_bytes (meta_ClientVersion conn)) = meta_ClientVersion conn
  /\ exists w',
      runs (ssh_NewServerConn c (newServerConfig flags key)) w
           (Returned (hs_result (client w c)) w')
      /\ logs_of (emitted w w')
         = map (fun a => auth_record (mkMeta (att_user a) (hs_version (client w c)) (RemoteAddr c))
                                     (att_password a))
               (hs_attempts (client w c)).
Proof.
  split; [apply passwordCallback_runs|].
  split; [apply list_byte_of_string_of_list_byte|].
  split; [apply list_byte_of_string_of_list_byte|].
  eexists. split; [apply ssh_NewServerConn_runs|].
  rewrite emitted_emit. apply logs_of_auth.
Qed.

(** C3: when the handshake fails, [handleConn] logs a warning, closes the
    socket and returns: it starts no goroutine, it does not exit the
    process, and it leaves the listener's queue as it was.  The socket
    is closed last on every path on which [handleConn] returns. *)
Theorem C3_handshake_failure_is_local
        (flags : Flags) (key : Signer) (conn : Conn) (w : World) (err : error) :
  hs_result (client w conn) = inr err ->
  (exists w',
      runs (handleConn (newServerConfig flags key) conn) w (Returned tt w')
      /\ emitted w w'
         = auth_obs conn (client w conn)
             ++ [OLog (mkLog WarnLevel [] ("Failed to establish SSH connection:" ++ Error err));
                 OConnClose conn]
      /\ tasks_of (emitted w w') = []
      /\ incoming w' = incoming w)
  /\ (forall w0 w1,
         runs (handleConn (newServerConfig flags key) conn) w0 (Returned tt w1) ->
         exists obs, emitted w0 w1 = obs ++ [OConnClose conn])
  /\ (forall w0 w1,
         ~ runs (handleConn (newServerConfig flags key) conn) w0 (Exited w1)).
Proof.
  intros Hfail. split; [|split].
  - eexists. split.
    + eapply runs_same; [apply handleConn_runs|].
      unfold handleConn_outcome. rewrite Hfail. reflexivity.
    + rewrite emitted_emit. split; [reflexivity|]. split; [|reflexivity].
      rewrite tasks_of_app, tasks_of_auth. reflexivity.
  - intros w0 w1 Hrun. apply handleConn_det in Hrun.
    unfold handleConn_outcome in Hrun.
    destruct (hs_result (client w0 conn)) as [est|err0].
    + destruct (chan_closes (est_channels est)); [|discriminate].
      injection Hrun as ->. rewrite emitted_emit.
      exists (auth_obs conn (client w0 conn) ++ dispatch_obs conn est
                ++ [OLog (disconnected_record conn)]).
      rewrite <- !app_assoc. reflexivity.
    + injection Hrun as ->. rewrite emitted_emit.
      exists (auth_obs conn (client w0 conn) ++ [OLog (handshake_failed_record err0)]).
      rewrite <- !app_assoc. reflexivity.
  - intros w0 w1 Hrun. apply handleConn_det in Hrun.
    unfold handleConn_outcome in Hrun.
    destruct (hs_result (client w0 conn)) as [est|err0]; [|discriminate].
    destruct (chan_closes (est_channels est)); discriminate.
Qed.

Lemma C3_witness :
  exists w',
    runs (handleConn (newServerConfig default_flags (wrappedSigner ed_key)) conn1)
         (machine [] hs_scanner) (Returned tt w')
    /\ emitted (machine [] hs_scanner) w'
       = [OLog (mkLog WarnLevel [] "Failed to establish SSH connection:EOF");
          OConnClose conn1].
Proof.
  destruct (C3_handshake_failure_is_local default_flags (wrappedSigner ed_key) conn1
              (machine [] hs_scanner) (mkError "EOF") eq_refl)
    as [[w' [Hrun [Hobs _]]] _].
  exists w'. split; [exact Hrun | exact Hobs].
Defined.

(** C7: once the channel stream of an established connection ends,
    [handleConn] logs "Client disconnected" with the remote address as
    its last record, closes the socket and returns.  While the stream is
    open it waits and logs no such record. *)
Theorem C7_disconnect_is_logged
        (flags : Flags) (key : Signer) (conn : Conn) (w : World) (est : Established) :
  hs_result (client w conn) = inl est ->
  (chan_closes (est_channels est) = true ->
   exists w' obs,
     runs (handleConn (newServerConfig flags key) conn) w (Returned tt w')
     /\ emitted w w'
        = obs ++ [OLog (mkLog InfoLevel [("client", VAddr (RemoteAddr conn))]
                              "Client disconnected");
                  OConnClose conn]
     /\ forall r, In r (logs_of obs) -> log_msg r <> "Client disconnected")
  /\ (chan_closes (est_channels est) = false ->
      exists w',
        runs (handleConn (newServerConfig flags key) conn) w (Blocked w')
        /\ forall r, In r (logs_of (emitted w w')) -> log_msg r <> "Client disconnected").
Proof.
  intros Hest.
  assert (Hpre : forall r, In r (logs_of (auth_obs conn (client w conn) ++ dispatch_obs conn est)) ->
                           log_msg r <> "Client disconnected").
  { intros r. unfold dispatch_obs. rewrite !logs_of_app, in_app_iff. simpl.
    rewrite logs_of_channels. simpl.
    intros [Hin|[<-|[]]]; [rewrite (auth_msg _ _ _ Hin)|]; discriminate. }
  split; intros Hclose.
  - exists (emit (auth_obs conn (client w conn) ++ dispatch_obs conn est
                    ++ [OLog (disconnected_record conn); OConnClose conn]) w).
    exists (auth_obs conn (client w conn) ++ dispatch_obs conn est).
    split; [|split].
    + eapply runs_same; [apply handleConn_runs|].
      unfold handleConn_outcome. rewrite Hest, Hclose. reflexivity.
    + rewrite emitted_emit, <- !app_assoc. reflexivity.
    + exact Hpre.
  - exists (emit (auth_obs conn (client w conn) ++ dispatch_obs conn est) w).
    split.
    + eapply runs_same; [apply handleConn_runs|].
      unfold handleConn_outcome. rewrite Hest, Hclose. reflexivity.
    + rewrite emitted_emit. exact Hpre.
Qed.

Lemma C7_witness :
  exists w' obs,
    runs (handleConn (newServerConfig default_flags (wrappedSigner ed_key)) conn1)
         (machine [] hs_session) (Returned tt w')
    /\ emitted (machine [] hs_session) w'
       = obs ++ [OLog (mkLog InfoLevel [("client", VAddr addr1)] "Client disconnected");
                 OConnClose conn1].
Proof.
  destruct (C7_disconnect_is_logged default_flags (wrappedSigner ed_key) conn1
              (machine [] hs_session) _ eq_refl) as [Hclosed _].
  destruct (Hclosed eq_refl) as [w' [obs [Hrun [Hobs _]]]].
  exists w', obs. split; [exact Hrun | exact Hobs].
Defined.

(** C8: an established connection starts [request.Handle] exactly once,
    with the connection's remote address, the label "global" and the
    connection's request stream, whether or not the channel stream ever
    ends; a connection whose handshake fails never starts it. *)
Theorem C8_request_handler_started_once
        (flags : Flags) (key : Signer) (conn : Conn) (w : World) :
  exists o,
    runs (handleConn (newServerConfig flags key) conn) w o
    /\ (forall est,
           hs_result (client w conn) = inl est ->
           filter is_request_task (tasks_of (emitted_by w o))
           = [go_request_Handle (RemoteAddr conn) "global" (est_requests est)])
    /\ (forall err,
           hs_result (client w conn) = inr err ->
           filter is_request_task (tasks_of (emitted_by w o)) = []).
Proof.
  exists (handleConn_outcome conn (client w conn) w).
  split; [apply handleConn_runs|].
  assert (Hch : forall chs, filter is_request_task
                              (map (go_channel_Handle (RemoteAddr conn)) chs) = []).
  { induction chs; simpl; auto. }
  unfold handleConn_outcome.
  split.
  - intros est ->.
    destruct (chan_closes (est_channels est)); cbv beta iota; unfold emitted_by;
      rewrite emitted_emit; unfold dispatch_obs;
      rewrite !tasks_of_app, tasks_of_auth, tasks_of_channels;
      simpl; rewrite ?filter_app, Hch; reflexivity.
  - intros err ->. unfold emitted_by. rewrite emitted_emit, tasks_of_app, tasks_of_auth.
    reflexivity.
Qed.

Lemma C8_witness :
  exists o,
    runs (handleConn (newServerConfig default_flags (wrappedSigner ed_key)) conn1)
         (machine [] hs_staying) o
    /\ filter is_request_task (tasks_of (emitted_by (machine [] hs_staying) o))
       = [go_request_Handle addr1 "global" (mkChan [] false)].
Proof.
  destruct (C8_request_handler_started_once default_flags (wrappedSigner ed_key) conn1
              (machine [] hs_staying)) as [o [Hrun [Hest _]]].
  exists o. split; [exact Hrun | exact (Hest _ eq_refl)].
Defined.

(** C9, against the claim as stated: a client whose password reached the
    callback before the handshake failed leaves a third record. *)
Lemma C9_counterexample :
  ~ only_two_records default_flags (wrappedSigner ed_key) conn1 (machine [] hs_gone).
Proof.
  intros H.
  specialize (H (mkError "write: broken pipe")
                (emit (auth_obs conn1 hs_gone
                         ++ [OLog (handshake_failed_record (mkError "write: broken pipe"));
                             OConnClose conn1])
                      (machine [] hs_gone))
                eq_refl (handleConn_runs _ _ _ _)).
  rewrite emitted_emit in H. simpl in H. discriminate H.
Qed.

(** C9: a connection whose handshake fails never logs "Client
    disconnected".  Its records are "Client connected" from the accept
    loop, one "Password authentication accepted" for each password the
    client tried during the handshake, and the warning.  Whenever
    [handleConn] does log "Client disconnected", the handshake had
    succeeded. *)
Theorem C9_no_disconnect_without_session
        (flags : Flags) (key : Signer) (conn : Conn) (w : World) (err : error) :
  hs_result (client w conn) = inr err ->
  (exists w',
      runs (handleConn (newServerConfig flags key) conn) w (Returned tt w')
      /\ logs_of (accept_obs (newServerConfig flags key) (inl conn) ++ emitted w w')
         = [mkLog InfoLevel [("client", VAddr (RemoteAddr conn))] "Client connected"]
             ++ map (fun a => auth_record (conn_metadata conn (hs_version (client w conn)) a)
                                          (att_password a))
                    (hs_attempts (client w conn))
             ++ [mkLog WarnLevel [] ("Failed to establish SSH connection:" ++ Error err)]
      /\ forall r, In r (logs_of (accept_obs (newServerConfig flags key) (inl conn)
                                    ++ emitted w w')) ->
                   log_msg r <> "Client disconnected")
  /\ (forall w0 o r,
         runs (handleConn (newServerConfig flags key) conn) w0 o ->
         In r (logs_of (emitted_by w0 o)) ->
         log_msg r = "Client disconnected" ->
         exists est, hs_result (client w0 conn) = inl est).
Proof.
  intros Hfail. split.
  - exists (emit (auth_obs conn (client w conn)
                    ++ [OLog (handshake_failed_record err); OConnClose conn]) w).
    split; [|split].
    + eapply runs_same; [apply handleConn_runs|].
      unfold handleConn_outcome. rewrite Hfail. reflexivity.
    + rewrite emitted_emit. simpl. rewrite logs_of_app, logs_of_auth. reflexivity.
    + rewrite emitted_emit. simpl. rewrite logs_of_app. simpl.
      intros r [<-|Hin]; [discriminate|].
      apply in_app_iff in Hin. destruct Hin as [Hin|[<-|[]]].
      * rewrite (auth_msg _ _ _ Hin). discriminate.
      * discriminate.
  - intros w0 o r Hrun Hin Hmsg. apply handleConn_det in Hrun. subst o.
    unfold handleConn_outcome in Hin.
    destruct (hs_result (client w0 conn)) as [est|err0]; [eauto|].
    exfalso. simpl in Hin. rewrite emitted_emit, logs_of_app in Hin. simpl in Hin.
    apply in_app_iff in Hin. destruct Hin as [Hin|[<-|[]]].
    + rewrite (auth_msg _ _ _ Hin) in Hmsg. discriminate.
    + discriminate.
Qed.

Lemma C9_witness :
  exists w',
    runs (handleConn (newServerConfig default_flags (wrappedSigner ed_key)) conn1)
         (machine [] hs_gone) (Returned tt w')
    /\ logs_of (accept_obs (newServerConfig default_flags (wrappedSigner ed_key)) (inl conn1)
                  ++ emitted (machine [] hs_gone) w')
       = [mkLog InfoLevel [("client", VAddr addr1)] "Client connected";
          mkLog InfoLevel [("client", VAddr addr1); ("user", VString "root");
                           ("password", VString "hunter2");
                           ("version", VString "SSH-2.0-OpenSSH_7.4")]
                "Password authentication accepted";
          mkLog WarnLevel [] "Failed to establish SSH connection:write: broken pipe"].
Proof.
  destruct (C9_no_disconnect_without_session default_flags (wrappedSigner ed_key) conn1
              (machine [] hs_gone) (mkError "write: broken pipe") eq_refl)
    as [[w' [Hrun [Hlogs _]]] _].
  exists w'. split; [exact Hrun | exact Hlogs].
Defined.

(** C2, against the claim as stated: a client that logs in and opens one
    session makes [handleConn] start two goroutines, not three. *)
Lemma C2_counterexample :
  ~ two_dispatch_tasks default_flags (wrappedSigner ed_key) conn1 (machine [] hs_session).
Proof.
  intros H.
  specialize (H _ _ eq_refl (handleConn_runs _ _ _ _)).
  vm_compute in H. discriminate H.
Qed.

(** C2: the accept loop starts one goroutine per accepted connection,
    [handleConn].  On an established connection [handleConn] starts one
    goroutine for the global requests and then reads the channel stream
    itself, starting one goroutine per channel in the order the channels
    arrive; it waits for none of them, so every channel of the stream is
    handed over whatever the earlier handlers do. *)
Theorem C2_goroutines_started
        (flags : Flags) (key : Signer) (listener : Listener) (conn : Conn) (w : World) :
  (exists w',
      runs (serve (newServerConfig flags key) listener) w (Blocked w')
      /\ tasks_of (emitted w w')
         = flat_map (fun r => match r with
                              | inl c => [go_handleConn (newServerConfig flags key) c]
                              | inr _ => []
                              end) (incoming w))
  /\ (forall est,
         hs_result (client w conn) = inl est ->
         exists o,
           runs (handleConn (newServerConfig flags key) conn) w o
           /\ tasks_of (emitted_by w o)
              = go_request_Handle (RemoteAddr conn) "global" (est_requests est)
                  :: map (go_channel_Handle (RemoteAddr conn))
                         (chan_items (est_channels est)))
  /\ (forall t w0, exists w1, handle (inr1 (Go t)) w0 = Resume tt w1).
Proof.
  split; [|split].
  - eexists. split; [apply serve_runs|].
    rewrite emitted_emit2.
    induction (incoming w) as [|[c|e] q IH]; simpl; auto.
    rewrite IH. reflexivity.
  - intros est Hest. eexists. split; [apply handleConn_runs|].
    unfold handleConn_outcome. rewrite Hest.
    destruct (chan_closes (est_channels est)); unfold emitted_by;
      rewrite emitted_emit; unfold dispatch_obs;
      rewrite !tasks_of_app, tasks_of_auth, tasks_of_channels;
      simpl; rewrite ?app_nil_r; reflexivity.
  - intros t w0. eexists. reflexivity.
Qed.

Lemma C2_witness :
  exists o,
    runs (handleConn (newServerConfig default_flags (wrappedSigner ed_key)) conn1)
         (machine [] hs_session) o
    /\ tasks_of (emitted_by (machine [] hs_session) o)
       = [go_request_Handle addr1 "global" (mkChan [] true);
          go_channel_Handle addr1 (mkNewChannel "session" [])].
Proof.
  destruct (C2_goroutines_started default_flags (wrappedSigner ed_key)
              (mkListener addr1) conn1 (machine [] hs_session)) as [_ [Hest _]].
  exact (Hest _ eq_refl).
Defined.

(** Any number of handshakes may fail, one after the other: each
    goroutine returns and only the trace grows. *)
Lemma failed_handshakes_run flags key conns : forall w,
  Forall (fun conn => exists err, hs_result (client w conn) = inr err) conns ->
  exists obs, handshakes_run (newServerConfig flags key) conns w (emit obs w).
Proof.
  induction conns as [|c cs IH]; intros w Hfail.
  - exists []. rewrite emit_nil. constructor.
  - inversion Hfail as [|c' cs' [err Herr] Hrest]; subst.
    destruct (IH (emit (auth_obs c (client w c)
                          ++ [OLog (handshake_failed_record err); OConnClose c]) w) Hrest)
      as [obs Hruns].
    rewrite emit_emit in Hruns. eexists. econstructor; [|exact Hruns].
    eapply runs_same; [apply handleConn_runs|].
    unfold handleConn_outcome. rewrite Herr. reflexivity.
Qed.

(** C5: an error from [Accept] is logged as a warning and the loop goes
    round again: the loop works through everything [Accept] returns,
    errors and connections alike, and ends up waiting in [Accept], with
    the listener still open.  Handshakes that fail in the connections'
    goroutines, however many, change nothing of that. *)
Theorem C5_accept_errors_do_not_stop_listener
        (flags : Flags) (key : Signer) (listener : Listener) (w : World) :
  (forall err q,
      incoming w = inr err :: q ->
      runs (accept_once (newServerConfig flags key) listener) w
           (Returned tt
              (emit [OLog (mkLog WarnLevel [] ("Failed to accept connection:" ++ Error err))]
                    (set_incoming q w))))
  /\ (exists w',
         runs (serve (newServerConfig flags key) listener) w (Blocked w')
         /\ incoming w' = []
         /\ emitted w w'
            = flat_map
                (fun r =>
                   match r with
                   | inr err =>
                       [OLog (mkLog WarnLevel [] ("Failed to accept connection:" ++ Error err))]
                   | inl conn =>
                       [OLog (mkLog InfoLevel [("client", VAddr (RemoteAddr conn))]
                                    "Client connected");
                        OGo (go_handleConn (newServerConfig flags key) conn)]
                   end) (incoming w))
  /\ (forall conns,
         Forall (fun conn => exists err, hs_result (client w conn) = inr err) conns ->
         exists w1 w2,
           handshakes_run (newServerConfig flags key) conns w w1
           /\ incoming w1 = incoming w
           /\ runs (serve (newServerConfig flags key) listener) w1 (Blocked w2)
           /\ incoming w2 = []
           /\ emitted w1 w2 = flat_map (accept_obs (newServerConfig flags key)) (incoming w)).
Proof.
  split; [|split].
  - intros err q Hin. exact (accept_once_runs _ listener w (inr err) q Hin).
  - eexists. split; [apply serve_runs|]. split; [reflexivity|].
    rewrite emitted_emit2. reflexivity.
  - intros conns Hfail.
    destruct (failed_handshakes_run flags key conns w Hfail) as [obs Hruns].
    exists (emit obs w). eexists.
    split; [exact Hruns|]. split; [reflexivity|]. split; [apply serve_runs|].
    split; [reflexivity|]. rewrite emitted_emit2. reflexivity.
Qed.

Lemma C5_witness :
  runs (accept_once (newServerConfig default_flags (wrappedSigner ed_key)) (mkListener addr1))
       (machine [inr (mkError "accept: too many open files"); inl conn1] hs_scanner)
       (Returned tt
          (emit [OLog (mkLog WarnLevel [] "Failed to accept connection:accept: too many open files")]
                (machine [inl conn1] hs_scanner)))
  /\ exists w1 w2,
      handshakes_run (newServerConfig default_flags (wrappedSigner ed_key)) [conn1; conn2]
                     (machine [inr (mkError "accept: too many open files"); inl conn1] hs_scanner)
                     w1
      /\ incoming w1 = [inr (mkError "accept: too many open files"); inl conn1]
      /\ runs (serve (newServerConfig default_flags (wrappedSigner ed_key)) (mkListener addr1))
              w1 (Blocked w2)
      /\ incoming w2 = []
      /\ emitted w1 w2
         = [OLog (mkLog WarnLevel [] "Failed to accept connection:accept: too many open files");
            OLog (mkLog InfoLevel [("client", VAddr addr1)] "Client connected");
            OGo (go_handleConn (newServerConfig default_flags (wrappedSigner ed_key)) conn1)].
Proof.
  split.
  - exact (proj1 (C5_accept_errors_do_not_stop_listener default_flags (wrappedSigner ed_key)
                    (mkListener addr1)
                    (machine [inr (mkError "accept: too many open files"); inl conn1]
                             hs_scanner))
                 (mkError "accept: too many open files") [inl conn1] eq_refl).
  - exact (proj2 (proj2 (C5_accept_errors_do_not_stop_listener default_flags
                           (wrappedSigner ed_key) (mkListener addr1)
                           (machine [inr (mkError "accept: too many open files"); inl conn1]
                                    hs_scanner)))
                 [conn1; conn2]
                 (Forall_cons _ (ex_intro _ (mkError "EOF") eq_refl)
                    (Forall_cons _ (ex_intro _ (mkError "EOF") eq_refl) (Forall_nil _)))).
Defined.

Lemma hostKey_given flags : hostKey flags <> "" -> negb (hostKey flags =? "") = true.
Proof. intros H. apply negb_true_iff, String.eqb_neq. exact H. Qed.

Lemma hostKey_empty flags : hostKey flags = "" -> negb (hostKey flags =? "") = false.
Proof. intros H. apply negb_false_iff, String.eqb_eq. exact H. Qed.

Lemma provision_key_det flags w o :
  runs (provision_key flags) w o -> o = provision_key_outcome flags w.
Proof. intros H. eapply runs_det; [exact H | apply provision_key_runs]. Qed.

Lemma main_det flags w o : runs (main flags) w o -> o = main_outcome flags w.
Proof. intros H. eapply runs_det; [exact H | apply main_runs]. Qed.

(** How key provisioning can end. *)
Lemma provision_key_cases flags w :
  (exists msg, provision_key_outcome flags w = Exited (emit (fatal_obs msg) w))
  \/ (exists key, provision_key_outcome flags w = Returned key w)
  \/ (exists k, provision_key_outcome flags w
                = Returned (wrappedSigner k)
                           (emit [OLog (fingerprint_record (fingerprint w (wrappedSigner k)))] w)).
Proof.
  unfold provision_key_outcome.
  destruct (negb (hostKey flags =? "")).
  - destruct (fs_read w (hostKey flags)) as [b|e]; [|eauto].
    destruct (ssh_parse w b); eauto.
  - destruct (rand_key w) as [k|e]; [|eauto].
    destruct (signer_unsupported w k); eauto.
Qed.

(** C6: an unreadable key file, an unparseable key, a failed key
    generation and a failed [net.Listen] each end [main] in [log.Fatal]:
    the fatal record is the last thing logged, the process exits with
    status 1, and whenever [main] exits no connection has been accepted
    and no goroutine started. *)
Theorem C6_startup_errors_are_fatal (flags : Flags) (w : World) :
  (forall err,
      hostKey flags <> "" -> fs_read w (hostKey flags) = inr err ->
      runs (main flags) w
           (Exited (emit (formatter_obs flags
                            ++ [OLog (mkLog FatalLevel [] ("Failed to read host key:" ++ Error err));
                                OExit 1]) w)))
  /\ (forall keyBytes err,
         hostKey flags <> "" -> fs_read w (hostKey flags) = inl keyBytes ->
         ssh_parse w keyBytes = inr err ->
         runs (main flags) w
              (Exited (emit (formatter_obs flags
                               ++ [OLog (mkLog FatalLevel []
                                               ("Failed to parse host key:" ++ Error err));
                                   OExit 1]) w)))
  /\ (forall err,
         hostKey flags = "" -> rand_key w = inr err ->
         runs (main flags) w
              (Exited (emit (formatter_obs flags
                               ++ [OLog (mkLog FatalLevel []
                                               ("Failed to generate temporary private key:"
                                                  ++ Error err));
                                   OExit 1]) w)))
  /\ (forall key w1 err,
         runs (provision_key flags) (emit (formatter_obs flags) w) (Returned key w1) ->
         net_listen w "tcp" (JoinHostPort (listenAddress flags)
                                          (Itoa (int_of_uint (port flags)))) = inr err ->
         runs (main flags) w
              (Exited (emit [OLog (mkLog FatalLevel [] ("Failed to listen:" ++ Error err));
                             OExit 1] w1)))
  /\ (forall w',
         runs (main flags) w (Exited w') ->
         incoming w' = incoming w
         /\ tasks_of (emitted w w') = []
         /\ exists obs msg,
             emitted w w' = obs ++ [OLog (mkLog FatalLevel [] msg); OExit 1]).
Proof.
  split; [|split; [|split; [|split]]].
  - intros err Hkey Hread. eapply runs_same; [apply main_runs|].
    unfold main_outcome, provision_key_outcome.
    rewrite (hostKey_given _ Hkey). cbn. rewrite Hread.
    f_equal. apply emit_emit.
  - intros keyBytes err Hkey Hread Hparse. eapply runs_same; [apply main_runs|].
    unfold main_outcome, provision_key_outcome.
    rewrite (hostKey_given _ Hkey). cbn. rewrite Hread, Hparse.
    f_equal. apply emit_emit.
  - intros err Hkey Hgen. eapply runs_same; [apply main_runs|].
    unfold main_outcome, provision_key_outcome.
    rewrite (hostKey_empty _ Hkey). cbn. rewrite Hgen.
    f_equal. apply emit_emit.
  - intros key w1 err Hprov Hlisten. eapply runs_same; [apply main_runs|].
    unfold main_outcome. rewrite <- (provision_key_det _ _ _ Hprov).
    unfold listen_address. rewrite Hlisten. reflexivity.
  - intros w' Hrun. apply main_det in Hrun. unfold main_outcome in Hrun.
    destruct (provision_key_cases flags (emit (formatter_obs flags) w))
      as [[msg Hout]|[[key Hout]|[k Hout]]]; rewrite Hout in Hrun.
    + injection Hrun as ->. rewrite emit_emit, emitted_emit.
      split; [reflexivity|]. split.
      * unfold formatter_obs. destruct (jsonLogging flags); reflexivity.
      * exists (formatter_obs flags), msg. reflexivity.
    + destruct (net_listen w "tcp" (listen_address flags)) as [l|err]; [discriminate|].
      injection Hrun as ->. rewrite emit_emit, emitted_emit.
      split; [reflexivity|]. split.
      * unfold formatter_obs. destruct (jsonLogging flags); reflexivity.
      * exists (formatter_obs flags), ("Failed to listen:" ++ Error err)%string. reflexivity.
    + destruct (net_listen w "tcp" (listen_address flags)) as [l|err]; [discriminate|].
      injection Hrun as ->. rewrite !emit_emit, emitted_emit.
      split; [reflexivity|]. split.
      * unfold formatter_obs. destruct (jsonLogging flags); reflexivity.
      * eexists _, ("Failed to listen:" ++ Error err)%string.
        unfold fatal_obs. rewrite <- app_assoc. reflexivity.
Qed.

Lemma C6_witness :
  runs (main keyfile_flags) w_waiting
       (Exited (emit [OLog (mkLog FatalLevel []
                                  "Failed to read host key:no such file or directory");
                      OExit 1] w_waiting))
  /\ runs (main keyfile_flags) w_unparseable
          (Exited (emit [OLog (mkLog FatalLevel [] "Failed to parse host key:ssh: no key found");
                         OExit 1] w_unparseable))
  /\ runs (main default_flags) w_no_entropy
          (Exited (emit [OLog (mkLog FatalLevel []
                                     "Failed to generate temporary private key:EOF");
                         OExit 1] w_no_entropy))
  /\ runs (main default_flags) w_port_taken
          (Exited (emit [OLog (mkLog FatalLevel []
                                     "Failed to listen:bind: address already in use");
                         OExit 1]
                        (emit [OLog (fingerprint_record sum_zero)] w_port_taken))).
Proof.
  split; [|split; [|split]].
  - refine (proj1 (C6_startup_errors_are_fatal keyfile_flags w_waiting)
                  (mkError "no such file or directory") _ eq_refl).
    discriminate.
  - refine (proj1 (proj2 (C6_startup_errors_are_fatal keyfile_flags w_unparseable))
                  (list_byte_of_string "not a key") (mkError "ssh: no key found")
                  _ eq_refl eq_refl).
    discriminate.
  - exact (proj1 (proj2 (proj2 (C6_startup_errors_are_fatal default_flags w_no_entropy)))
                 (mkError "EOF") eq_refl eq_refl).
  - refine (proj1 (proj2 (proj2 (proj2 (C6_startup_errors_are_fatal default_flags w_port_taken))))
                  (wrappedSigner ed_key) _ (mkError "bind: address already in use")
                  _ eq_refl).
    apply (runs_fuel 10); [reflexivity | exact I].
Defined.

Lemma accept_obs_no_fingerprint serverConfig q :
  filter is_fingerprint (logs_of (flat_map (accept_obs serverConfig) q)) = [].
Proof.
  induction q as [|[c|e] q IH]; simpl; auto.
Qed.

Lemma formatter_obs_no_logs flags : logs_of (formatter_obs flags) = [].
Proof. unfold formatter_obs. destruct (jsonLogging flags); reflexivity. Qed.

Lemma auth_obs_no_fingerprint conn hs :
  filter is_fingerprint (logs_of (auth_obs conn hs)) = [].
Proof.
  rewrite logs_of_auth. induction (hs_attempts hs); simpl; auto.
Qed.

Lemma main_frame flags w w' :
  world_of (main_outcome flags w) = Some w' -> fs_read w' = fs_read w.
Proof.
  unfold main_outcome.
  destruct (provision_key_cases flags (emit (formatter_obs flags) w))
    as [[msg Hout]|[[key Hout]|[k Hout]]]; rewrite Hout; simpl.
  - intros [= <-]. reflexivity.
  - destruct (net_listen w "tcp" (listen_address flags)); intros [= <-]; reflexivity.
  - destruct (net_listen w "tcp" (listen_address flags)); intros [= <-]; reflexivity.
Qed.

(** C4: with a key file, [main] reads it and parses its bytes, and a
    failure of either is fatal; without one it generates an Ed25519 key,
    a failure being fatal, and logs the SHA-256 fingerprint of the new
    public key as a warning.  That warning appears once in all that
    [main] ever logs, never in what a connection's goroutine logs, and
    no run of [main] changes a file. *)
Theorem C4_key_provisioning (flags : Flags) (w : World) :
  (hostKey flags <> "" ->
   (forall err,
       fs_read w (hostKey flags) = inr err ->
       runs (provision_key flags) w
            (Exited (emit [OLog (mkLog FatalLevel [] ("Failed to read host key:" ++ Error err));
                           OExit 1] w)))
   /\ (forall keyBytes err,
          fs_read w (hostKey flags) = inl keyBytes -> ssh_parse w keyBytes = inr err ->
          runs (provision_key flags) w
               (Exited (emit [OLog (mkLog FatalLevel []
                                          ("Failed to parse host key:" ++ Error err));
                              OExit 1] w)))
   /\ (forall keyBytes key,
          fs_read w (hostKey flags) = inl keyBytes -> ssh_parse w keyBytes = inl key ->
          runs (provision_key flags) w (Returned key w)))
  /\ (hostKey flags = "" ->
      (forall err,
          rand_key w = inr err ->
          runs (provision_key flags) w
               (Exited (emit [OLog (mkLog FatalLevel []
                                          ("Failed to generate temporary private key:"
                                             ++ Error err));
                              OExit 1] w)))
      /\ (forall k,
             rand_key w = inl k -> signer_unsupported w k = None ->
             runs (provision_key flags) w
                  (Returned (wrappedSigner k)
                     (emit [OLog (mkLog WarnLevel
                                    [("sha256_fingerprint",
                                      VArray32 (sha256_sum w
                                                  (ssh_marshal w
                                                     (ed25519PublicKey (edpriv_Public k)))))]
                                    "Using a temporary host key, consider creating a permanent one and passing it to -host_key")]
                           w))
             /\ exists o,
                 runs (main flags) w o
                 /\ List.length (filter is_fingerprint (logs_of (emitted_by w o))) = 1))
  /\ (forall key conn w0 o,
         runs (handleConn (newServerConfig flags key) conn) w0 o ->
         filter is_fingerprint (logs_of (emitted_by w0 o)) = [])
  /\ (forall o w',
         runs (main flags) w o -> world_of o = Some w' -> fs_read w' = fs_read w).
Proof.
  split; [|split; [|split]].
  - intros Hkey. split; [|split].
    + intros err Hread. eapply runs_same; [apply provision_key_runs|].
      unfold provision_key_outcome. rewrite (hostKey_given _ Hkey), Hread. reflexivity.
    + intros keyBytes err Hread Hparse. eapply runs_same; [apply provision_key_runs|].
      unfold provision_key_outcome. rewrite (hostKey_given _ Hkey), Hread, Hparse.
      reflexivity.
    + intros keyBytes key Hread Hparse. eapply runs_same; [apply provision_key_runs|].
      unfold provision_key_outcome. rewrite (hostKey_given _ Hkey), Hread, Hparse.
      reflexivity.
  - intros Hkey. split.
    + intros err Hgen. eapply runs_same; [apply provision_key_runs|].
      unfold provision_key_outcome. rewrite (hostKey_empty _ Hkey), Hgen. reflexivity.
    + intros k Hgen Hsigner. split.
      * eapply runs_same; [apply provision_key_runs|].
        unfold provision_key_outcome. rewrite (hostKey_empty _ Hkey), Hgen, Hsigner.
        reflexivity.
      * exists (main_outcome flags w). split; [apply main_runs|].
        unfold main_outcome, provision_key_outcome.
        rewrite (hostKey_empty _ Hkey). cbn [rand_key signer_unsupported emit].
        rewrite Hgen, Hsigner.
        destruct (net_listen w "tcp" (listen_address flags)) as [l|err];
          unfold emitted_by; rewrite ?set_incoming_emit, !emit_emit, emitted_emit2 || rewrite !emit_emit, emitted_emit;
          rewrite !logs_of_app, formatter_obs_no_logs; simpl;
          rewrite ?accept_obs_no_fingerprint; reflexivity.
  - intros key conn w0 o Hrun. apply handleConn_det in Hrun. subst o.
    unfold handleConn_outcome.
    destruct (hs_result (client w0 conn)) as [est|err].
    + destruct (chan_closes (est_channels est)); unfold emitted_by;
        rewrite emitted_emit; unfold dispatch_obs;
        rewrite !logs_of_app, !filter_app, auth_obs_no_fingerprint; simpl;
        rewrite logs_of_channels; reflexivity.
    + unfold emitted_by. rewrite emitted_emit, logs_of_app, filter_app, auth_obs_no_fingerprint.
      reflexivity.
  - intros o w' Hrun Hw. apply main_det in Hrun. subst o.
    exact (main_frame _ _ _ Hw).
Qed.

Lemma C4_witness :
  runs (provision_key keyfile_flags) w_keyfile (Returned file_key w_keyfile)
  /\ runs (provision_key default_flags) w_waiting
          (Returned (wrappedSigner ed_key)
                    (emit [OLog (fingerprint_record sum_zero)] w_waiting)).
Proof.
  split.
  - refine (proj2 (proj2 (proj1 (C4_key_provisioning keyfile_flags w_keyfile) _))
                  (list_byte_of_string "PEM") file_key eq_refl eq_refl).
    discriminate.
  - exact (proj1 (proj2 (proj1 (proj2 (C4_key_provisioning default_flags w_waiting)) eq_refl)
                        ed_key eq_refl eq_refl)).
Defined.

(** C10: without a key file, a signer [main] gets from key provisioning
    is always the wrapper of the Ed25519 key the random source gave, and
    the record logged with it carries, as a 32-byte array, the SHA-256
    sum of the marshalled public key of that signer.  Provisioning does
    return such a signer whenever generation and wrapping succeed, and
    it becomes the host key of the server configuration. *)
Theorem C10_ephemeral_key_is_ed25519 (flags : Flags) (w : World) :
  hostKey flags = "" ->
  (forall key w',
      runs (provision_key flags) w (Returned key w') ->
      key_algo (PublicKey key) = algo_ed25519
      /\ exists k sum,
          rand_key w = inl k
          /\ key = wrappedSigner k
          /\ PublicKey key = ed25519PublicKey (edpriv_Public k)
          /\ sum = sha256_sum w (ssh_marshal w (PublicKey key))
          /\ List.length (arr_bytes sum) = 32
          /\ emitted w w'
             = [OLog (mkLog WarnLevel [("sha256_fingerprint", VArray32 sum)]
                            "Using a temporary host key, consider creating a permanent one and passing it to -host_key")]
          /\ hostKeys (newServerConfig flags key) = [key])
  /\ (forall k,
         rand_key w = inl k -> signer_unsupported w k = None ->
         exists w', runs (provision_key flags) w (Returned (wrappedSigner k) w')).
Proof.
  intros Hkey. split.
  - intros key w' Hrun. apply provision_key_det in Hrun.
    unfold provision_key_outcome in Hrun. rewrite (hostKey_empty _ Hkey) in Hrun.
    destruct (rand_key w) as [k|err]; [|discriminate].
    destruct (signer_unsupported w k); [discriminate|].
    injection Hrun as -> ->. split; [reflexivity|].
    exists k, (fingerprint w (wrappedSigner k)).
    repeat split.
    + apply Nat.eqb_eq. apply arr_len.
    + apply emitted_emit.
  - intros k Hgen Hsigner. eexists.
    eapply runs_same; [apply provision_key_runs|].
    unfold provision_key_outcome. rewrite (hostKey_empty _ Hkey), Hgen, Hsigner.
    reflexivity.
Qed.

Lemma C10_witness :
  key_algo (PublicKey (wrappedSigner ed_key)) = algo_ed25519
  /\ exists k sum,
      rand_key w_waiting = inl k
      /\ wrappedSigner ed_key = wrappedSigner k
      /\ PublicKey (wrappedSigner ed_key) = ed25519PublicKey (edpriv_Public k)
      /\ sum = sha256_sum w_waiting (ssh_marshal w_waiting (PublicKey (wrappedSigner ed_key)))
      /\ List.length (arr_bytes sum) = 32
      /\ emitted w_waiting (emit [OLog (fingerprint_record sum_zero)] w_waiting)
         = [OLog (mkLog WarnLevel [("sha256_fingerprint", VArray32 sum)]
                        "Using a temporary host key, consider creating a permanent one and passing it to -host_key")]
      /\ hostKeys (newServerConfig default_flags (wrappedSigner ed_key)) = [wrappedSigner ed_key].
Proof.
  refine (proj1 (C10_ephemeral_key_is_ed25519 default_flags w_waiting eq_refl)
                (wrappedSigner ed_key)
                (emit [OLog (fingerprint_record sum_zero)] w_waiting) _).
  apply (runs_fuel 10); [reflexivity | exact I].
Defined.

(* ===================================================================== *)
(** * Further properties of main.go *)
(* ===================================================================== *)

(** ** What one run of [handleConn] adds to the trace *)

Lemma emitted_frame w w' o : trace w' = trace w ++ o -> emitted w w' = o.
Proof.
  unfold emitted. intros ->. induction (trace w) as [|x l IH]; simpl; auto.
Qed.

Lemma handleConn_outcome_world conn hs w :
  world_of (handleConn_outcome conn hs w) = Some (emit (handleConn_obs conn hs) w).
Proof.
  unfold handleConn_outcome, handleConn_obs.
  destruct (hs_result hs) as [est|err]; [|reflexivity].
  destruct (chan_closes (est_channels est)); simpl; [reflexivity|].
  rewrite app_nil_r. reflexivity.
Qed.

Lemma handleConn_outcome_obs conn hs w :
  emitted_by w (handleConn_outcome conn hs w) = handleConn_obs conn hs.
Proof.
  pose proof (handleConn_outcome_world conn hs w) as H.
  destruct (handleConn_outcome conn hs w); simpl in *; try discriminate;
    injection H as ->; apply emitted_emit.
Qed.

Lemma handleConn_outcome_returns conn hs w :
  (exists w', handleConn_outcome conn hs w = Returned tt w') <-> finishes hs = true.
Proof.
  unfold handleConn_outcome, finishes.
  destruct (hs_result hs) as [est|err].
  - destruct (chan_closes (est_channels est)); split; eauto; try discriminate.
    intros [w' H]. discriminate H.
  - split; eauto.
Qed.

Lemma closes_of_app a b : closes_of (a ++ b) = closes_of a ++ closes_of b.
Proof.
  induction a as [|[] a IH]; simpl; auto. rewrite IH. reflexivity.
Qed.

Lemma closes_of_auth conn hs : closes_of (auth_obs conn hs) = [].
Proof. unfold auth_obs. induction (hs_attempts hs); simpl; auto. Qed.

Lemma closes_of_channels conn chs : closes_of (channel_tasks conn chs) = [].
Proof. induction chs; simpl; auto. Qed.

Lemma closes_of_handleConn conn hs :
  closes_of (handleConn_obs conn hs) = if finishes hs then [conn] else [].
Proof.
  unfold handleConn_obs, finishes, dispatch_obs.
  destruct (hs_result hs) as [est|err].
  - rewrite !closes_of_app, closes_of_auth, closes_of_channels.
    destruct (chan_closes (est_channels est)); reflexivity.
  - rewrite closes_of_app, closes_of_auth. reflexivity.
Qed.

(** The records of one run, by where they come from. *)
Lemma logs_of_handleConn conn hs r :
  In r (logs_of (handleConn_obs conn hs)) ->
  (exists a, In a (hs_attempts hs)
             /\ r = auth_record (conn_metadata conn (hs_version hs) a) (att_password a))
  \/ r = established_record conn
  \/ r = disconnected_record conn
  \/ (exists err, hs_result hs = inr err /\ r = handshake_failed_record err).
Proof.
  unfold handleConn_obs, dispatch_obs.
  destruct (hs_result hs) as [est|err] eqn:Hres;
    rewrite ?logs_of_app, ?in_app_iff, logs_of_auth, ?logs_of_channels;
    [destruct (chan_closes (est_channels est))|]; simpl;
    intros Hin;
    repeat match type of Hin with
           | _ \/ _ => destruct Hin as [Hin|Hin]
           | False => destruct Hin
           end;
    try (apply in_map_iff in Hin; destruct Hin as [a [<- Ha]]; left; eauto);
    subst; eauto 6.
Qed.

Lemma tasks_of_handleConn conn hs :
  tasks_of (handleConn_obs conn hs) =
  match hs_result hs with
  | inr _ => []
  | inl est => request_task conn est
               :: map (go_channel_Handle (RemoteAddr conn)) (chan_items (est_channels est))
  end.
Proof.
  unfold handleConn_obs, dispatch_obs.
  destruct (hs_result hs) as [est|err].
  - rewrite !tasks_of_app, tasks_of_auth, tasks_of_channels.
    destruct (chan_closes (est_channels est)); simpl; rewrite app_nil_r; reflexivity.
  - rewrite tasks_of_app, tasks_of_auth. reflexivity.
Qed.

(** X6: every record [handleConn] logs for a connection names that
    connection's remote address as its client, every goroutine it starts
    is given that address, and the only socket it closes is the
    connection's own. *)
Theorem X6_everything_names_the_connection
        (flags : Flags) (key : Signer) (conn : Conn) (w : World) :
  exists o,
    runs (handleConn (newServerConfig flags key) conn) w o
    /\ (forall r v, In r (logs_of (emitted_by w o)) ->
                    In ("client", v) (log_fields r) -> v = VAddr (RemoteAddr conn))
    /\ (forall t, In t (tasks_of (emitted_by w o)) -> task_remote t = RemoteAddr conn)
    /\ (forall c, In c (closes_of (emitted_by w o)) -> c = conn).
Proof.
  exists (handleConn_outcome conn (client w conn) w).
  split; [apply handleConn_runs|]. rewrite handleConn_outcome_obs.
  split; [|split].
  - intros r v Hr Hv. apply logs_of_handleConn in Hr.
    destruct Hr as [[a [_ ->]]|[->|[->|[err [_ ->]]]]]; simpl in Hv.
    + destruct Hv as [Hv|[Hv|[Hv|[Hv|[]]]]]; inversion Hv. reflexivity.
    + destruct Hv as [Hv|[]]. inversion Hv. reflexivity.
    + destruct Hv as [Hv|[]]. inversion Hv. reflexivity.
    + destruct Hv.
  - intros t. rewrite tasks_of_handleConn.
    destruct (hs_result (client w conn)) as [est|err]; [|intros []].
    intros [<-|Hin]; [reflexivity|].
    apply in_map_iff in Hin. destruct Hin as [ch [<- _]]. reflexivity.
  - intros c. rewrite closes_of_handleConn.
    destruct (finishes (client w conn)); [|intros []].
    intros [<-|[]]. reflexivity.
Qed.

(** X7: [handleConn] closes the connection's socket exactly once when
    it returns, which it does exactly when the handshake fails or the
    channel stream ends; as long as the stream stays open it waits and
    the socket stays open. *)
Theorem X7_socket_closed_once_on_return
        (flags : Flags) (key : Signer) (conn : Conn) (w : World) :
  exists o,
    runs (handleConn (newServerConfig flags key) conn) w o
    /\ closes_of (emitted_by w o) = (if finishes (client w conn) then [conn] else [])
    /\ ((exists w', o = Returned tt w') <-> finishes (client w conn) = true)
    /\ ((exists w', o = Blocked w') <-> finishes (client w conn) = false).
Proof.
  exists (handleConn_outcome conn (client w conn) w).
  split; [apply handleConn_runs|]. rewrite handleConn_outcome_obs.
  split; [apply closes_of_handleConn|].
  split; [apply handleConn_outcome_returns|].
  unfold handleConn_outcome, finishes.
  destruct (hs_result (client w conn)) as [est|err].
  - destruct (chan_closes (est_channels est)); split; eauto; try discriminate.
    intros [w' H]. discriminate H.
  - split; [intros [w' H]; discriminate H | discriminate].
Qed.

Lemma auth_obs_only_info conn hs :
  filter is_warning (logs_of (auth_obs conn hs)) = []
  /\ filter is_established (logs_of (auth_obs conn hs)) = []
  /\ filter is_formatter (auth_obs conn hs) = [].
Proof.
  rewrite logs_of_auth. unfold auth_obs.
  induction (hs_attempts hs) as [|a l [IH1 [IH2 IH3]]]; simpl; auto.
Qed.

Lemma channel_tasks_not_formatter conn chs :
  filter is_formatter (channel_tasks conn chs) = [].
Proof. induction chs; simpl; auto. Qed.

(** X8: what [handleConn] does for a connection is the same whatever
    other goroutines have logged before it starts and whatever the accept
    loop still has in its queue, and [handleConn] leaves that queue as it
    found it: connections do not interfere. *)
Theorem X8_connections_do_not_interfere
        (flags : Flags) (key : Signer) (conn : Conn) (w : World)
        (obs : list Obs) (q : list (Conn + error)) :
  exists o o',
    runs (handleConn (newServerConfig flags key) conn) w o
    /\ runs (handleConn (newServerConfig flags key) conn) (later obs q w) o'
    /\ emitted_by (later obs q w) o' = emitted_by w o
    /\ (forall w1, world_of o' = Some w1 ->
                   incoming w1 = q /\ trace w1 = trace w ++ obs ++ emitted_by w o).
Proof.
  exists (handleConn_outcome conn (client w conn) w).
  exists (handleConn_outcome conn (client (later obs q w) conn) (later obs q w)).
  split; [apply handleConn_runs|]. split; [apply handleConn_runs|].
  rewrite !handleConn_outcome_obs. split; [reflexivity|].
  intros w1. rewrite handleConn_outcome_world. intros [= <-].
  split; [reflexivity|]. simpl. rewrite <- app_assoc. reflexivity.
Qed.


(** ** What [main] adds to the trace *)

Lemma provision_key_returned flags w0 key w1 :
  provision_key_outcome flags w0 = Returned key w1 ->
  exists pre, w1 = emit pre w0
              /\ (pre = [] \/ exists sum, pre = [OLog (fingerprint_record sum)]).
Proof.
  intros H.
  destruct (provision_key_cases flags w0) as [[msg Hout]|[[key' Hout]|[k Hout]]];
    rewrite Hout in H; try discriminate; injection H as <- <-.
  - exists []. rewrite emit_nil. auto.
  - eexists. split; [reflexivity|]. right. eauto.
Qed.

(** The three ways [main] can go. *)
Lemma main_outcome_cases flags w :
  (exists msg,
      provision_key_outcome flags (emit (formatter_obs flags) w)
      = Exited (emit (fatal_obs msg) (emit (formatter_obs flags) w))
      /\ main_outcome flags w = Exited (emit (formatter_obs flags ++ fatal_obs msg) w))
  \/ (exists key pre,
         provision_key_outcome flags (emit (formatter_obs flags) w)
         = Returned key (emit pre (emit (formatter_obs flags) w))
         /\ (pre = [] \/ exists sum, pre = [OLog (fingerprint_record sum)])
         /\ ((exists err,
                 net_listen w "tcp" (listen_address flags) = inr err
                 /\ main_outcome flags w
                    = Exited (emit (formatter_obs flags ++ pre
                                      ++ fatal_obs ("Failed to listen:" ++ Error err)) w))
             \/ (exists listener,
                    net_listen w "tcp" (listen_address flags) = inl listener
                    /\ main_outcome flags w
                       = Blocked (emit (formatter_obs flags ++ pre
                                          ++ OLog (listening_record listener)
                                          :: flat_map (accept_obs (newServerConfig flags key))
                                                      (incoming w))
                                       (set_incoming [] w))))).
Proof.
  unfold main_outcome.
  destruct (provision_key_outcome flags (emit (formatter_obs flags) w))
    as [key w1|w1|w1|] eqn:Hout.
  - right. destruct (provision_key_returned _ _ _ _ Hout) as [pre [-> Hpre]].
    exists key, pre. split; [reflexivity|]. split; [exact Hpre|].
    destruct (net_listen w "tcp" (listen_address flags)) as [listener|err].
    + right. exists listener. split; [reflexivity|]. f_equal.
      unfold emit, set_incoming. simpl. rewrite <- !app_assoc. reflexivity.
    + left. exists err. split; [reflexivity|]. f_equal.
      unfold emit. simpl. rewrite <- !app_assoc. reflexivity.
  - left.
    destruct (provision_key_cases flags (emit (formatter_obs flags) w))
      as [[msg H]|[[key' H]|[k H]]]; rewrite H in Hout; try discriminate.
    injection Hout as <-. exists msg. split; [reflexivity|]. rewrite emit_emit. reflexivity.
  - destruct (provision_key_cases flags (emit (formatter_obs flags) w))
      as [[msg H]|[[key' H]|[k H]]]; rewrite H in Hout; discriminate.
  - destruct (provision_key_cases flags (emit (formatter_obs flags) w))
      as [[msg H]|[[key' H]|[k H]]]; rewrite H in Hout; discriminate.
Qed.

Lemma accept_obs_plain serverConfig q :
  filter is_formatter (flat_map (accept_obs serverConfig) q) = []
  /\ filter is_listener_close (flat_map (accept_obs serverConfig) q) = []
  /\ tasks_of (flat_map (accept_obs serverConfig) q)
     = map (go_handleConn serverConfig) (accepted q).
Proof.
  induction q as [|[c|e] q [IH1 [IH2 IH3]]]; simpl; auto.
  rewrite IH3. auto.
Qed.

Lemma formatter_obs_plain flags :
  filter is_listener_close (formatter_obs flags) = []
  /\ tasks_of (formatter_obs flags) = [].
Proof. unfold formatter_obs. destruct (jsonLogging flags); auto. Qed.

(** X1: [main] installs the JSON formatter exactly when [json_logging]
    is set, as the first thing it does, before any record is logged; after
    that neither [main] nor any connection's goroutine touches the
    formatter again. *)
Theorem X1_formatter_is_set_first (flags : Flags) (w : World) :
  exists o rest,
    runs (main flags) w o
    /\ emitted_by w o
       = (if jsonLogging flags then [OFormatter JSONFormatter] else []) ++ rest
    /\ filter is_formatter rest = []
    /\ forall key conn w0,
        exists o0,
          runs (handleConn (newServerConfig flags key) conn) w0 o0
          /\ filter is_formatter (emitted_by w0 o0) = [].
Proof.
  assert (Hconn : forall key conn w0,
             exists o0,
               runs (handleConn (newServerConfig flags key) conn) w0 o0
               /\ filter is_formatter (emitted_by w0 o0) = []).
  { intros key conn w0. eexists. split; [apply handleConn_runs|].
    rewrite handleConn_outcome_obs. unfold handleConn_obs, dispatch_obs.
    destruct (auth_obs_only_info conn (client w0 conn)) as [_ [_ Hf]].
    destruct (hs_result (client w0 conn)) as [est|err];
      rewrite !filter_app, Hf, ?channel_tasks_not_formatter;
      [destruct (chan_closes (est_channels est))|]; reflexivity. }
  exists (main_outcome flags w).
  destruct (main_outcome_cases flags w)
    as [[msg [_ Hout]]|[key [pre [_ [Hpre [[err [_ Hout]]|[listener [_ Hout]]]]]]]];
    rewrite Hout; unfold emitted_by; rewrite ?emitted_emit, ?emitted_emit2;
    eexists; (split; [rewrite <- Hout; apply main_runs|]);
    (split; [reflexivity|]); (split; [|exact Hconn]).
  - reflexivity.
  - rewrite filter_app. destruct Hpre as [->|[sum ->]]; reflexivity.
  - rewrite filter_app. change (OLog (listening_record listener) :: ?l)
      with ([OLog (listening_record listener)] ++ l).
    rewrite filter_app, (proj1 (accept_obs_plain _ _)).
    destruct Hpre as [->|[sum ->]]; reflexivity.
Qed.

(** X2: [main] never returns: it ends in [log.Fatal] during start-up or
    it waits in [Accept] for ever.  So the deferred [listener.Close()]
    never runs, and the listener is never closed. *)
Theorem X2_main_never_returns (flags : Flags) (w : World) :
  exists o,
    runs (main flags) w o
    /\ ((exists w', o = Exited w') \/ (exists w', o = Blocked w'))
    /\ filter is_listener_close (emitted_by w o) = [].
Proof.
  exists (main_outcome flags w). split; [apply main_runs|].
  destruct (formatter_obs_plain flags) as [Hf _].
  destruct (main_outcome_cases flags w)
    as [[msg [_ Hout]]|[key [pre [_ [Hpre [[err [_ Hout]]|[listener [_ Hout]]]]]]]];
    rewrite Hout; unfold emitted_by; rewrite ?emitted_emit, ?emitted_emit2;
    (split; [eauto|]); rewrite !filter_app, Hf.
  - reflexivity.
  - destruct Hpre as [->|[sum ->]]; reflexivity.
  - change (OLog (listening_record listener) :: ?l)
      with ([OLog (listening_record listener)] ++ l).
    rewrite filter_app, (proj1 (proj2 (accept_obs_plain _ _))).
    destruct Hpre as [->|[sum ->]]; reflexivity.
Qed.

(** X3: without a key file, when the key is generated but
    [ssh.NewSignerFromSigner] rejects it, [main] ends in [log.Fatal] with
    "Failed to parse generated private key:" and the library's error: no
    fingerprint is logged, nothing is listened on. *)
Theorem X3_rejected_generated_key_is_fatal
        (flags : Flags) (w : World) (k : ed25519_PrivateKey) (err : error) :
  hostKey flags = "" ->
  rand_key w = inl k ->
  signer_unsupported w k = Some err ->
  runs (main flags) w
       (Exited (emit ((if jsonLogging flags then [OFormatter JSONFormatter] else [])
                        ++ [OLog (mkLog FatalLevel []
                                        ("Failed to parse generated private key:" ++ Error err));
                            OExit 1]) w)).
Proof.
  intros Hkey Hgen Hsigner. eapply runs_same; [apply main_runs|].
  unfold main_outcome, provision_key_outcome.
  rewrite (hostKey_empty _ Hkey). cbn [rand_key signer_unsupported emit].
  rewrite Hgen, Hsigner. f_equal. apply emit_emit.
Qed.

Lemma X3_witness :
  runs (main default_flags) w_rejected_key
       (Exited (emit [OLog (mkLog FatalLevel []
                                  "Failed to parse generated private key:ssh: unsupported key type");
                      OExit 1] w_rejected_key)).
Proof.
  exact (X3_rejected_generated_key_is_fatal default_flags w_rejected_key ed_key
           (mkError "ssh: unsupported key type") eq_refl eq_refl eq_refl).
Defined.

(** X4: the two sources of the host key exclude each other.  With a key
    file, [main] never consults the random source or
    [ssh.NewSignerFromSigner] and logs no fingerprint warning; without
    one, it never reads or parses a file.  What [main] does is the same
    however the unused source would have answered. *)
Theorem X4_key_sources_exclude_each_other (flags : Flags) (w : World) :
  exists o,
    runs (main flags) w o
    /\ (hostKey flags <> "" ->
        filter is_fingerprint (logs_of (emitted_by w o)) = []
        /\ forall r unsupported,
            exists o',
              runs (main flags) (with_keygen r unsupported w) o'
              /\ emitted_by (with_keygen r unsupported w) o' = emitted_by w o)
    /\ (hostKey flags = "" ->
        forall read parse,
          exists o',
            runs (main flags) (with_files read parse w) o'
            /\ emitted_by (with_files read parse w) o' = emitted_by w o).
Proof.
  exists (main_outcome flags w). split; [apply main_runs|]. split.
  - intros Hkey. split.
    + unfold main_outcome, provision_key_outcome. rewrite (hostKey_given _ Hkey).
      cbn [fs_read ssh_parse emit].
      destruct (fs_read w (hostKey flags)) as [b|e];
        [destruct (ssh_parse w b) as [key|e];
         [destruct (net_listen w "tcp" (listen_address flags))|]|];
        unfold emitted_by; rewrite ?set_incoming_emit, ?emit_emit,
                             ?emitted_emit, ?emitted_emit2;
        rewrite ?logs_of_app, ?filter_app, formatter_obs_no_logs; simpl;
        rewrite ?accept_obs_no_fingerprint; reflexivity.
    + intros r unsupported. exists (main_outcome flags (with_keygen r unsupported w)).
      split; [apply main_runs|].
      unfold main_outcome, provision_key_outcome. rewrite (hostKey_given _ Hkey).
      cbn [fs_read ssh_parse net_listen incoming with_keygen emit].
      destruct (fs_read w (hostKey flags)) as [b|e];
        [destruct (ssh_parse w b) as [key|e];
         [destruct (net_listen w "tcp" (listen_address flags))|]|];
        reflexivity.
  - intros Hkey read parse. exists (main_outcome flags (with_files read parse w)).
    split; [apply main_runs|].
    unfold main_outcome, provision_key_outcome. rewrite (hostKey_empty _ Hkey).
    cbn [rand_key signer_unsupported net_listen incoming with_files emit].
    destruct (rand_key w) as [k|e];
      [destruct (signer_unsupported w k);
       [|destruct (net_listen w "tcp" (listen_address flags))]|];
      reflexivity.
Qed.

Lemma X4_witness :
  exists o o',
    runs (main keyfile_flags) w_keyfile o
    /\ runs (main keyfile_flags)
            (with_keygen (inr (mkError "EOF")) (fun _ => None) w_keyfile) o'
    /\ emitted_by (with_keygen (inr (mkError "EOF")) (fun _ => None) w_keyfile) o'
       = emitted_by w_keyfile o.
Proof.
  destruct (X4_key_sources_exclude_each_other keyfile_flags w_keyfile)
    as [o [Hrun [Hfile _]]].
  assert (Hkey : hostKey keyfile_flags <> "") by discriminate.
  destruct (proj2 (Hfile Hkey) (inr (mkError "EOF")) (fun _ => None)) as [o' [Hrun' Hsame]].
  exists o, o'. split; [exact Hrun|]. split; [exact Hrun' | exact Hsame].
Defined.

(** X5: every connection's goroutine is started with one and the same
    configuration: the [server_version] flag as given (no check that it
    starts with SSH-2.0-), the accepting password callback, and exactly
    one host key, the provisioned one.  One goroutine is started per
    accepted connection, in the order of acceptance, and none if the
    listener cannot be opened. *)
Theorem X5_one_configuration_for_all
        (flags : Flags) (w : World) (key : Signer) (w1 : World) :
  runs (provision_key flags) (emit (formatter_obs flags) w) (Returned key w1) ->
  exists o,
    runs (main flags) w o
    /\ tasks_of (emitted_by w o)
       = match net_listen w "tcp" (JoinHostPort (listenAddress flags)
                                                (Itoa (int_of_uint (port flags)))) with
         | inl _ =>
             map (go_handleConn (mkServerConfig (serverVersion flags) passwordCallback [key]))
                 (accepted (incoming w))
         | inr _ => []
         end.
Proof.
  intros Hprov. apply provision_key_det in Hprov. symmetry in Hprov.
  exists (main_outcome flags w). split; [apply main_runs|].
  destruct (formatter_obs_plain flags) as [_ Hf].
  destruct (main_outcome_cases flags w)
    as [[msg [Hkey _]]|[key' [pre [Hkey [Hpre [[err [Hl Hout]]|[listener [Hl Hout]]]]]]]].
  - rewrite Hprov in Hkey. discriminate Hkey.
  - rewrite Hout. unfold listen_address in Hl. rewrite Hl.
    unfold emitted_by. rewrite emitted_emit, !tasks_of_app, Hf.
    destruct Hpre as [->|[sum ->]]; reflexivity.
  - rewrite Hprov in Hkey. injection Hkey as <- _.
    rewrite Hout. unfold listen_address in Hl. rewrite Hl.
    unfold emitted_by. rewrite emitted_emit2, !tasks_of_app, Hf.
    change (OLog (listening_record listener) :: ?l)
      with ([OLog (listening_record listener)] ++ l).
    rewrite tasks_of_app, (proj2 (proj2 (accept_obs_plain _ _))).
    destruct Hpre as [->|[sum ->]]; reflexivity.
Qed.

Lemma X5_witness :
  exists o,
    runs (main (mkFlags "/etc/sshesame/host_key" "localhost" 2022 false "not an SSH version"))
         w_keyfile o
    /\ tasks_of (emitted_by w_keyfile o)
       = [go_handleConn (mkServerConfig "not an SSH version" passwordCallback [file_key]) conn1].
Proof.
  refine (X5_one_configuration_for_all
            (mkFlags "/etc/sshesame/host_key" "localhost" 2022 false "not an SSH version")
            w_keyfile file_key w_keyfile _).
  apply (runs_fuel 10); [reflexivity | exact I].
Defined.

Lemma accept_obs_not_listening serverConfig q :
  filter (fun r => log_msg r =? "Listening") (logs_of (flat_map (accept_obs serverConfig) q))
  = [].
Proof.
  induction q as [|[c|e] q IH]; simpl; auto.
Qed.

(** X9: once the key is there and the listener is open, [main] logs
    "Listening" with the address the listener reports
    ([listener.Addr()]), before it accepts anything; that record appears
    once in all that [main] logs, and [main] then takes everything
    [Accept] returns. *)
Theorem X9_listening_is_logged_once
        (flags : Flags) (w : World) (key : Signer) (w1 : World) (listener : Listener) :
  runs (provision_key flags) (emit (formatter_obs flags) w) (Returned key w1) ->
  net_listen w "tcp" (JoinHostPort (listenAddress flags)
                                   (Itoa (int_of_uint (port flags)))) = inl listener ->
  exists w2,
    runs (main flags) w (Blocked w2)
    /\ incoming w2 = []
    /\ emitted w1 w2
       = OLog (mkLog InfoLevel [("listen_address", VAddr (listener_Addr listener))]
                     "Listening")
           :: flat_map (accept_obs (newServerConfig flags key)) (incoming w)
    /\ filter (fun r => log_msg r =? "Listening") (logs_of (emitted w w2))
       = [mkLog InfoLevel [("listen_address", VAddr (listener_Addr listener))] "Listening"].
Proof.
  intros Hprov Hlisten. apply provision_key_det in Hprov. symmetry in Hprov.
  destruct (main_outcome_cases flags w)
    as [[msg [Hkey _]]|[key' [pre [Hkey [Hpre [[err [Hl _]]|[listener' [Hl Hout]]]]]]]].
  - rewrite Hprov in Hkey. discriminate Hkey.
  - unfold listen_address in Hl. rewrite Hlisten in Hl. discriminate Hl.
  - rewrite Hprov in Hkey. injection Hkey as <- ->.
    unfold listen_address in Hl. rewrite Hlisten in Hl. injection Hl as <-.
    eexists. split; [rewrite <- Hout; apply main_runs|].
    split; [reflexivity|]. split.
    + apply emitted_frame. simpl. rewrite <- !app_assoc. reflexivity.
    + rewrite emitted_emit2, !logs_of_app, formatter_obs_no_logs.
      change (OLog (listening_record listener) :: ?l)
        with ([OLog (listening_record listener)] ++ l).
      rewrite logs_of_app, !filter_app, accept_obs_not_listening.
      destruct Hpre as [->|[sum ->]]; reflexivity.
Qed.

Lemma X9_witness :
  exists w2,
    runs (main default_flags) w_waiting (Blocked w2)
    /\ incoming w2 = []
    /\ emitted (emit [OLog (fingerprint_record sum_zero)] w_waiting) w2
       = [OLog (mkLog InfoLevel [("listen_address", VAddr (mkAddr "tcp" "localhost:2022"))]
                      "Listening");
          OLog (mkLog InfoLevel [("client", VAddr addr1)] "Client connected");
          OGo (go_handleConn (newServerConfig default_flags (wrappedSigner ed_key)) conn1)].
Proof.
  assert (Hprov : runs (provision_key default_flags) (emit (formatter_obs default_flags) w_waiting)
                       (Returned (wrappedSigner ed_key)
                                 (emit [OLog (fingerprint_record sum_zero)] w_waiting)))
    by (apply (runs_fuel 10); [reflexivity | exact I]).
  destruct (X9_listening_is_logged_once default_flags w_waiting (wrappedSigner ed_key) _
              (mkListener (mkAddr "tcp" "localhost:2022")) Hprov eq_refl)
    as [w2 [Hrun [Hq [Hobs _]]]].
  exists w2. split; [exact Hrun|]. split; [exact Hq | exact Hobs].
Defined.

(** ** The accept loop and the goroutines it starts, together *)

Lemma goroutines_run_all flags key conns : forall w,
  goroutines_run (newServerConfig flags key) conns w
                 (emit (flat_map (fun conn => handleConn_obs conn (client w conn)) conns) w).
Proof.
  induction conns as [|c cs IH]; intros w; simpl.
  - rewrite emit_nil. constructor.
  - econstructor.
    + apply handleConn_runs.
    + apply handleConn_outcome_world.
    + specialize (IH (emit (handleConn_obs c (client w c)) w)).
      rewrite emit_emit in IH. exact IH.
Qed.

Lemma closes_of_goroutines (who : Conn -> Handshake) conns :
  closes_of (flat_map (fun conn => handleConn_obs conn (who conn)) conns)
  = filter (fun conn => finishes (who conn)) conns.
Proof.
  induction conns as [|c cs IH]; simpl; auto.
  rewrite closes_of_app, closes_of_handleConn, IH.
  destruct (finishes (who c)); reflexivity.
Qed.

Lemma closes_of_accept serverConfig q :
  closes_of (flat_map (accept_obs serverConfig) q) = [].
Proof. induction q as [|[c|e] q IH]; simpl; auto. Qed.

(** X10: no accepted connection is lost and no socket leaks.  The accept
    loop starts one goroutine for each connection [Accept] returns and
    closes no socket itself; when those goroutines run, each socket whose
    client lets the handshake fail or ends its channel stream is closed,
    once, and the others stay open for as long as their client stays. *)
Theorem X10_accepted_connections_are_closed
        (flags : Flags) (key : Signer) (listener : Listener) (w : World) :
  exists w1 w2,
    runs (serve (newServerConfig flags key) listener) w (Blocked w1)
    /\ tasks_of (emitted w w1)
       = map (go_handleConn (newServerConfig flags key)) (accepted (incoming w))
    /\ closes_of (emitted w w1) = []
    /\ goroutines_run (newServerConfig flags key) (accepted (incoming w)) w1 w2
    /\ closes_of (emitted w1 w2)
       = filter (fun conn => finishes (client w conn)) (accepted (incoming w)).
Proof.
  eexists. eexists.
  split; [apply serve_runs|].
  rewrite emitted_emit2.
  split; [apply accept_obs_plain|].
  split; [apply closes_of_accept|].
  split; [apply goroutines_run_all|].
  rewrite emitted_emit. apply (closes_of_goroutines (client w)).
Qed.

(** X12: [main] asks [net.Listen] for one thing only, a [tcp] listener on
    the address [net.JoinHostPort] makes of [listen_address] and the
    decimal [port]: what [net.Listen] would answer for any other network
    or address makes no difference to what [main] does. *)
Theorem X12_listens_on_the_flags_address
        (flags : Flags) (w : World) (listen : string -> string -> Listener + error) :
  listen "tcp" (JoinHostPort (listenAddress flags) (Itoa (int_of_uint (port flags))))
  = net_listen w "tcp" (JoinHostPort (listenAddress flags) (Itoa (int_of_uint (port flags)))) ->
  exists o o',
    runs (main flags) w o
    /\ runs (main flags) (with_listen listen w) o'
    /\ emitted_by (with_listen listen w) o' = emitted_by w o.
Proof.
  intros Hsame.
  exists (main_outcome flags w), (main_outcome flags (with_listen listen w)).
  split; [apply main_runs|]. split; [apply main_runs|].
  unfold main_outcome.
  unfold provision_key_outcome.
  cbn [fs_read ssh_parse rand_key signer_unsupported net_listen incoming with_listen emit].
  unfold listen_address. rewrite Hsame.
  destruct (negb (hostKey flags =? ""));
    [destruct (fs_read w (hostKey flags)) as [b|e];
     [destruct (ssh_parse w b) as [k|e]|]
    |destruct (rand_key w) as [k|e];
     [destruct (signer_unsupported w k)|]];
    try reflexivity;
    destruct (net_listen w "tcp" (JoinHostPort (listenAddress flags)
                                               (Itoa (int_of_uint (port flags)))));
    reflexivity.
Qed.

Lemma X12_witness :
  exists o o',
    runs (main default_flags) w_waiting o
    /\ runs (main default_flags)
            (with_listen (fun network address =>
                            if address =? "localhost:2022"
                            then inl (mkListener (mkAddr "tcp" address))
                            else inr (mkError "bind: permission denied"))
                         w_waiting) o'
    /\ emitted_by (with_listen (fun network address =>
                                  if address =? "localhost:2022"
                                  then inl (mkListener (mkAddr "tcp" address))
                                  else inr (mkError "bind: permission denied"))
                               w_waiting) o'
       = emitted_by w_waiting o.
Proof.
  exact (X12_listens_on_the_flags_address default_flags w_waiting
           (fun network address =>
              if address =? "localhost:2022"
              then inl (mkListener (mkAddr "tcp" address))
              else inr (mkError "bind: permission denied"))
           eq_refl).
Defined.
